(** * SQLbot: the sanitising, executing and presenting pipeline

    A shallow embedding of the functions of [main.py], [app.py] and
    [db_utils.py] that decide what SQL text reaches the database and how
    results and errors are shaped, followed by the properties they have.

    Modelling conventions.
    - A Python [str] is a [text]: a list of characters.  On ASCII texts
      the character functions below ([isspace], [upper], [strip], [\s],
      [\w]) are Python's; the properties that rest on them are stated for
      ASCII texts.
    - A [raise] is a result in the left summand carrying the exception's
      message; a [return] is a result in the right summand.
    - The database is a record of the answers it gives at the boundary
      (catalogue rows, the outcome of running a statement); every statement
      handed to it is recorded in a trace, so that "is executed" and
      "is never executed" are statements about that trace. *)

From Stdlib Require Import List Ascii String Bool Arith ZArith Lia.
From Stdlib Require Import Numbers.DecimalString.
Import ListNotations.
Local Open Scope string_scope.
Local Open Scope list_scope.
Local Open Scope bool_scope.

(** ** Python strings

    A text is a [str] whose characters are ASCII, given by their codes.  On
    such a text [isspace], [upper], [strip] and the classes [\s] and [\w] of
    [re] are the functions below; what Python does with other characters (a
    no-break space is whitespace, the long s has S for its upper case, a
    Cyrillic letter is a word character) is outside the model, and the
    properties that rest on these functions are stated for ASCII texts. *)

Definition text := list ascii.

(** A literal. *)
Definition txt (s : string) : text := list_ascii_of_string s.

Module Py.

(** [c.isspace()] of an ASCII character, which is also the class [\s] of
    [re] there: TAB, LF, VT, FF, CR, FS, GS, RS, US and space. *)
Definition is_space (c : ascii) : bool :=
  let n := nat_of_ascii c in
  (((9 <=? n) && (n <=? 13)) || ((28 <=? n) && (n <=? 32)))%nat.

Definition is_lower (c : ascii) : bool :=
  let n := nat_of_ascii c in ((97 <=? n) && (n <=? 122))%nat.

Definition is_upper (c : ascii) : bool :=
  let n := nat_of_ascii c in ((65 <=? n) && (n <=? 90))%nat.

Definition is_digit (c : ascii) : bool :=
  let n := nat_of_ascii c in ((48 <=? n) && (n <=? 57))%nat.

(** [c.upper()] of an ASCII character: only the letters a to z change. *)
Definition upper_char (c : ascii) : ascii :=
  if is_lower c then ascii_of_nat (nat_of_ascii c - 32) else c.

(** [s.upper()] of an ASCII text *)
Definition upper (s : text) : text := map upper_char s.

(** [s.startswith(p)] *)
Fixpoint startswith (p s : text) : bool :=
  match p, s with
  | [], _ => true
  | _ :: _, [] => false
  | a :: p', b :: s' => Ascii.eqb a b && startswith p' s'
  end.

(** [s.endswith(p)] *)
Definition endswith (p s : text) : bool := startswith (rev p) (rev s).

(** [p in s] *)
Fixpoint contains (p s : text) : bool :=
  startswith p s ||
  match s with
  | [] => false
  | _ :: s' => contains p s'
  end.

(** The longest prefix of [s] whose characters all satisfy [f]. *)
Fixpoint takewhile (f : ascii -> bool) (s : text) : text :=
  match s with
  | [] => []
  | c :: s' => if f c then c :: takewhile f s' else []
  end.

Fixpoint dropwhile (f : ascii -> bool) (s : text) : text :=
  match s with
  | [] => []
  | c :: s' => if f c then dropwhile f s' else s
  end.

Definition lstrip (s : text) : text := dropwhile is_space s.
Definition rstrip (s : text) : text := rev (dropwhile is_space (rev s)).

(** [s.strip()] of an ASCII text *)
Definition strip (s : text) : text := rstrip (lstrip s).

(** [s.replace(c, '')] for a one-character [c] *)
Definition remove_char (c : ascii) (s : text) : text :=
  filter (fun x => negb (Ascii.eqb x c)) s.

(** [s.split(c)[0]] for a one-character [c]: the text before the first [c],
    all of [s] when there is none. *)
Definition split_first (c : ascii) (s : text) : text :=
  takewhile (fun x => negb (Ascii.eqb x c)) s.

(** [s.count(c)] for a one-character [c] *)
Definition count (c : ascii) (s : text) : nat :=
  List.length (filter (fun x => Ascii.eqb x c) s).

(** [s[:-1]] *)
Definition drop_last (s : text) : text := removelast s.

(** [sep.join(parts)] *)
Fixpoint join (sep : text) (parts : list text) : text :=
  match parts with
  | [] => []
  | [p] => p
  | p :: rest => p ++ sep ++ join sep rest
  end.

(** [a == b] *)
Fixpoint eqb (a b : text) : bool :=
  match a, b with
  | [], [] => true
  | x :: a', y :: b' => Ascii.eqb x y && eqb a' b'
  | _, _ => false
  end.


(** [not s]: the empty string is the only falsy one. *)
Definition falsy (s : text) : bool :=
  match s with [] => true | _ :: _ => false end.

(** [str(n)] for an [int] *)
Definition str_of_int (n : Z) : text :=
  txt (NilZero.string_of_int (Z.to_int n)).

End Py.

Arguments Py.is_space : simpl never.
Arguments Py.upper_char : simpl never.

(** ** Regular expressions

    [re.sub] and [re.search] scan the subject from left to right and try the
    pattern at each position.  A pattern is given here by its anchored
    matcher: what the pattern matches when tried at the start of a text. *)

Module Re.

(** [re.sub(pattern, '', s)] for a pattern that never matches the empty text:
    [m s'] is the length of the match of the pattern at the start of [s'].  A
    match is dropped and the scan resumes right after it; where the pattern
    does not match, the character is kept.  [skip] counts the characters of
    the current match still to drop. *)
Fixpoint sub_go (m : text -> option nat) (skip : nat) (s : text) : text :=
  match s with
  | [] => []
  | c :: s' =>
      match skip with
      | S k => sub_go m k s'
      | O =>
          match m s with
          | Some (S k) => sub_go m k s'
          | _ => c :: sub_go m 0 s'
          end
      end
  end.

Definition sub (m : text -> option nat) (s : text) : text := sub_go m 0 s.

(** [re.search(pattern, s)]: the leftmost position where the pattern matches;
    [m] returns what is read off the match (a group). *)
Fixpoint search {A : Type} (m : text -> option A) (s : text) : option A :=
  match m s with
  | Some g => Some g
  | None =>
      match s with
      | [] => None
      | _ :: s' => search m s'
      end
  end.

Definition newline : ascii := "010"%char.

(** [--.*?$] with [re.MULTILINE]: two dashes and the rest of the line; [.]
    does not match a newline and [$] matches before one and at the end. *)
Definition line_comment (s : text) : option nat :=
  if Py.startswith (txt "--") s
  then Some (2 + List.length
                   (Py.takewhile (fun c => negb (Ascii.eqb c newline)) (skipn 2 s)))
  else None.

(** Index of the first occurrence of [p] in [s]. *)
Fixpoint find (p s : text) : option nat :=
  if Py.startswith p s then Some 0
  else match s with
       | [] => None
       | _ :: s' => option_map S (find p s')
       end.

(** [/\*.*?\*/] with [re.DOTALL]: from the opener to the first closer after
    it; no match when no closer follows. *)
Definition block_comment (s : text) : option nat :=
  if Py.startswith (txt "/*") s
  then option_map (fun k => 2 + k + 2) (find (txt "*/") (skipn 2 s))
  else None.

(** [SELECT\s+.*] with [re.IGNORECASE | re.DOTALL] on an ASCII text: the
    keyword in any case, at least one whitespace character, and everything
    up to the end of the text; the value is group 0. *)
Definition select_rest (s : text) : option text :=
  if Py.startswith (txt "SELECT") (Py.upper s)
  then match skipn 6 s with
       | c :: _ => if Py.is_space c then Some s else None
       | [] => None
       end
  else None.

(** [\w] of an ASCII character: a letter, a digit or the underscore. *)
Definition is_word (c : ascii) : bool :=
  Py.is_lower c || Py.is_upper c || Py.is_digit c || Ascii.eqb c "_"%char.

Definition dquote : ascii := "034"%char.

(** [relation "(\w+)" does not exist]: the value is group 1.  A double quote
    is no word character, so the group is the whole run of word characters
    after the opening quote. *)
Definition relation_missing (s : text) : option text :=
  let opener := txt "relation " ++ [dquote] in
  let closer := dquote :: txt " does not exist" in
  if Py.startswith opener s
  then let rest := skipn (List.length opener) s in
       let name := Py.takewhile is_word rest in
       match name with
       | [] => None
       | _ :: _ =>
           if Py.startswith closer (skipn (List.length name) rest)
           then Some name else None
       end
  else None.

(** [```sql|```]: the fence with its language tag, else the bare fence. *)
Definition code_fence (s : text) : option nat :=
  if Py.startswith (txt "```sql") s then Some 6
  else if Py.startswith (txt "```") s then Some 3
  else None.

(** [re.findall(pattern, s)] for a pattern with one group that never matches
    the empty text: the groups of the matches found from left to right, each
    search resuming right after the previous match.  [m s'] is the length of
    the match at the start of [s'] and its group. *)
Fixpoint findall_go {A : Type} (m : text -> option (nat * A)) (skip : nat)
    (s : text) : list A :=
  match s with
  | [] => []
  | _ :: s' =>
      match skip with
      | S k => findall_go m k s'
      | O =>
          match m s with
          | Some (S k, g) => g :: findall_go m k s'
          | _ => findall_go m 0 s'
          end
      end
  end.

Definition findall {A : Type} (m : text -> option (nat * A)) (s : text) : list A :=
  findall_go m 0 s.

(** [CREATE TABLE (\w+)]: the group is the whole run of word characters
    after the keyword, which must not be empty. *)
Definition create_table (s : text) : option (nat * text) :=
  if Py.startswith (txt "CREATE TABLE ") s
  then let name := Py.takewhile is_word (skipn 13 s) in
       match name with
       | [] => None
       | _ :: _ => Some (13 + List.length name, name)
       end
  else None.

End Re.

Arguments Re.is_word : simpl never.

(** ** Results of a call that may raise *)

(** [inl msg]: the call raised an exception whose [str] is [msg];
    [inr v]: it returned [v]. *)
Definition result (A : Type) : Type := (text + A)%type.

Definition raise {A : Type} (msg : string) : result A := inl (txt msg).

(** ** What the sanitizers of main.py and app.py share *)

Definition backtick : ascii := "096"%char.
Definition semicolon : ascii := ";"%char.
Definition nl : text := [Re.newline].

(** The text starts with the keyword, in any case. *)
Definition begins_with_select (s : text) : bool :=
  Py.startswith (txt "SELECT") (Py.upper s).

(** Lines 144-160 of main.py and 69-85 of app.py, which are the same text:
    comments and backticks are removed and the text is cut down to what
    starts at the keyword. *)
Definition select_part (query : text) : result text :=
  let query := Re.sub Re.line_comment query in
  let query := Re.sub Re.block_comment query in
  let query := Py.remove_char backtick query in
  if negb (Py.startswith (txt "SELECT") (Py.upper (Py.strip query))) then
    if Py.contains (txt "SELECT") (Py.upper query) then
      match Re.search Re.select_rest query with
      | Some select_match => inr select_match
      | None => raise "No valid SELECT statement found in query"
      end
    else raise "Only SELECT queries are allowed"
  else inr query.

(** Lines 163-170 of main.py, which [execute_sql_query] repeats at lines
    257-263: one trailing semicolon is dropped, and of several statements the
    first is kept. *)
Definition first_statement (query : text) : text :=
  let query := Py.strip query in
  let query :=
    if Py.endswith [semicolon] query then Py.drop_last query else query in
  if Py.contains [semicolon] query
  then Py.strip (Py.split_first semicolon query)
  else query.

(** ** app.py: the sanitizer *)

Module App.

(** [clean_sql_query] of app.py: the same up to the keyword check, then a
    semicolon is appended when the text does not end with one. *)
Definition clean_sql_query (query : text) : result text :=
  let query := Re.sub Re.line_comment query in
  let query := Re.sub Re.block_comment query in
  let query := Py.remove_char backtick query in
  let selected : result text :=
    if negb (Py.startswith (txt "SELECT") (Py.upper (Py.strip query))) then
      if Py.contains (txt "SELECT") (Py.upper query) then
        match Re.search Re.select_rest query with
        | Some select_match => inr select_match
        | None => raise "No valid SELECT statement found in query"
        end
      else raise "Only SELECT queries are allowed"
    else inr query in
  match selected with
  | inl e => inl e
  | inr query =>
      let query := Py.strip query in
      let query :=
        if negb (Py.endswith [semicolon] query)
        then query ++ [semicolon] else query in
      inr query
  end.

End App.

(** ** Database values and catalogue rows *)

(** A value of a result row. *)
Inductive value : Type :=
| Null
| Int (n : Z)
| Str (s : text).

(** A row of [information_schema.columns]. *)
Record ColumnRow : Type := {
  table_schema : text;
  table_name : text;
  column_name : text;
  data_type : text;
  column_default : option text;
  is_nullable : text
}.

(** A Python dict with string keys, as the list of its items in insertion
    order.  [dict_set]: [d[k] = v]; a key already present keeps its place. *)
Fixpoint dict_set {V : Type} (k : text) (v : V) (d : list (text * V)) : list (text * V) :=
  match d with
  | [] => [(k, v)]
  | (k', v') :: d' =>
      if Py.eqb k k' then (k', v) :: d' else (k', v') :: dict_set k v d'
  end.

Fixpoint dict_get {V : Type} (k : text) (d : list (text * V)) : option V :=
  match d with
  | [] => None
  | (k', v') :: d' => if Py.eqb k k' then Some v' else dict_get k d'
  end.

(** [{column: value for column, value in zip(columns, row)}] *)
Definition dict_of_zip {V : Type} (columns : list text) (row : list V) : list (text * V) :=
  fold_left (fun d kv => dict_set (fst kv) (snd kv) d) (combine columns row) [].

(** ** main.py: the sanitizer, the SQLAlchemy engine and what runs on it *)

Module Main.

(** The engine as main.py uses it.  [connect]: [Some msg] when
    [engine.connect()] raises.  [pg_tables]: the rows (schemaname, tablename)
    of [pg_catalog.pg_tables].  [column_query name]: what the database
    answers to the column query with [name] spliced into its text,
    [SELECT ... FROM information_schema.columns WHERE table_name = 'name'
    ORDER BY ordinal_position]: the rows, or the message of the error raised
    (the name is spliced unescaped, so a name that holds a quote can break
    the statement).  [get_table_info] reads the name and the type of each
    row, [get_tables_and_columns] the name only; the table name is spliced
    the same way in both.  [run stmt]: what [conn.execute(text(stmt))] gives, the
    column names and the rows, or the message of the error it raises. *)
Record Engine : Type := {
  connect : option text;
  pg_tables : list (text * text);
  column_query : text -> result (list ColumnRow);
  run : text -> result (list text * list (list value))
}.

(** [SELECT tablename FROM pg_catalog.pg_tables WHERE schemaname !=
    'pg_catalog' AND schemaname != 'information_schema'] *)
Definition table_query (db : Engine) : list text :=
  map snd
    (filter (fun t => negb (Py.eqb (fst t) (txt "pg_catalog")) &&
                      negb (Py.eqb (fst t) (txt "information_schema")))
            (pg_tables db)).

(** The loop of [get_table_info] over the tables: the description of each
    table, or the error of the first column query that raises. *)
Fixpoint table_descriptions (db : Engine) (tables : list text)
  : result (list text) :=
  match tables with
  | [] => inr []
  | table_name :: rest =>
      match column_query db table_name with
      | inl e => inl e
      | inr columns =>
          let column_descriptions :=
            map (fun col => column_name col ++ txt " " ++ data_type col) columns in
          let table_description :=
            txt "CREATE TABLE " ++ table_name ++ txt " (" ++ nl ++ txt "  "
            ++ Py.join (txt "," ++ nl ++ txt "  ") column_descriptions
            ++ nl ++ txt ");" in
          match table_descriptions db rest with
          | inl e => inl e
          | inr table_info => inr (table_description :: table_info)
          end
      end
  end.

(** [get_table_info] of main.py: any error inside the [try] gives the fixed
    text. *)
Definition get_table_info (db : Engine) : text :=
  match connect db with
  | Some _ => txt "Error getting database schema information."
  | None =>
      match table_descriptions db (table_query db) with
      | inl _ => txt "Error getting database schema information."
      | inr table_info => Py.join (nl ++ nl) table_info
      end
  end.





(** [clean_sql_query] of main.py *)
Definition clean_sql_query (query : text) : result text :=
  let query := Re.sub Re.line_comment query in
  let query := Re.sub Re.block_comment query in
  let query := Py.remove_char backtick query in
  let selected : result text :=
    if negb (Py.startswith (txt "SELECT") (Py.upper (Py.strip query))) then
      if Py.contains (txt "SELECT") (Py.upper query) then
        match Re.search Re.select_rest query with
        | Some select_match => inr select_match
        | None => raise "No valid SELECT statement found in query"
        end
      else raise "Only SELECT queries are allowed"
    else inr query in
  match selected with
  | inl e => inl e
  | inr query =>
      let query := Py.strip query in
      let query :=
        if Py.endswith [semicolon] query then Py.drop_last query else query in
      let query :=
        if Py.contains [semicolon] query
        then Py.strip (Py.split_first semicolon query)
        else query in
      inr query
  end.

(** The outcome of [execute_sql_query] together with the statements it handed
    to [conn.execute], in order. *)
Definition Executed (A : Type) : Type := (result A * list text)%type.

(** [execute_sql_query] of main.py.  The rows are dicts from column name to
    value. *)
Definition execute_sql_query (db : Engine) (sql_query : text)
  : Executed (list (list (text * value)) * list text) :=
  let attempt : Executed (list (list (text * value)) * list text) :=
    if Py.falsy sql_query then (raise "Invalid SQL query", [])
    else
      let sql_query := Py.strip sql_query in
      let sql_query :=
        if Py.endswith [semicolon] sql_query
        then Py.drop_last sql_query else sql_query in
      let sql_query :=
        if Py.contains [semicolon] sql_query
        then Py.strip (Py.split_first semicolon sql_query)
        else sql_query in
      if negb (Py.startswith (txt "SELECT") (Py.upper sql_query))
      then (raise "Only SELECT queries are allowed", [])
      else
        match connect db with
        | Some e => (inl e, [])
        | None =>
            match run db sql_query with
            | inl e => (inl e, [sql_query])
            | inr (columns, result) =>
                (inr (map (dict_of_zip columns) result, columns), [sql_query])
            end
        end in
  match attempt with
  | (inl e, issued) => (inl (txt "Error executing query: " ++ e), issued)
  | (inr r, issued) => (inr r, issued)
  end.

(** The [except ValueError] handler of [process_query]: from the message of
    the error to the message of the 400 response.  [inl]: an error raised
    inside the handler, which leaves it. *)
Definition classify_error (db : Engine) (error_msg : text) : result text :=
  if Py.contains (txt "relation") error_msg &&
     Py.contains (txt "does not exist") error_msg then
    match Re.search Re.relation_missing error_msg with
    | Some missing_table =>
        match connect db with
        | Some e => inl e
        | None =>
            let available_tables := table_query db in
            let error_msg :=
              txt "Table '" ++ missing_table ++ txt "' does not exist. " in
            inr (match available_tables with
                 | [] => error_msg
                 | _ :: _ =>
                     error_msg ++ txt "Available tables: "
                     ++ Py.join (txt ", ") available_tables
                 end)
        end
    | None => inr error_msg
    end
  else inr error_msg.

(** [generate_sql_query] of main.py, from the outcome of the completion
    call: [inl msg] when the call (or reading the content of its first
    choice) raises, [inr content] when it returns that content.  The prompt
    is built from the question and the schema text and only feeds the call. *)
Definition generate_sql_query (completion : result text) : result text :=
  let attempt : result text :=
    match completion with
    | inl e => inl e
    | inr content =>
        let generated_sql := Py.strip content in
        let generated_sql := Re.sub Re.code_fence generated_sql in
        let generated_sql := Py.strip generated_sql in
        clean_sql_query generated_sql
    end in
  match attempt with
  | inl e => inl (txt "Failed to generate SQL: " ++ e)
  | inr cleaned_sql => inr cleaned_sql
  end.

(** The answers of [process_query]: the JSON body with its status code. *)
Inductive Response : Type :=
| Results (sql : text) (results : list (list (text * value))) (columns : list text)
| NoQuery
| Failed (error : text) (sql : option text)
| Unexpected.


(** What [request.get_json()] makes of the request: it raises (a body that
    is no JSON), it returns a value that is falsy or has no [query] field,
    or it returns a body with that field. *)
Inductive Body : Type :=
| Unreadable
| NoQueryField
| Query (user_query : text).

(** [process_query] of main.py.  [get_json] is called inside the outer
    [try], so what it raises ends in the last handler.  The answer comes
    with the statements handed to [conn.execute] by [execute_sql_query]. *)
Definition process_query (db : Engine) (data : Body)
    (completion : result text) : Response * list text :=
  match data with
  | Unreadable => (Unexpected, [])
  | NoQueryField => (NoQuery, [])
  | Query user_query =>
      match generate_sql_query completion with
      | inl error_msg =>
          match classify_error db error_msg with
          | inl _ => (Unexpected, [])
          | inr error_msg => (Failed error_msg None, [])
          end
      | inr sql_query =>
          match execute_sql_query db sql_query with
          | (inr (results, columns), issued) =>
              (Results sql_query results columns, issued)
          | (inl error_msg, issued) =>
              match classify_error db error_msg with
              | inl _ => (Unexpected, issued)
              | inr error_msg => (Failed error_msg (Some sql_query), issued)
              end
          end
      end
  end.

End Main.

(** ** db_utils.py: the psycopg2 connection and what runs on it *)

Module DbUtils.

(** A cursor after [cursor.execute]: the names of [cursor.description]
    ([None] when the statement returns no rows), what [cursor.fetchall()]
    gives or raises, and [cursor.rowcount]. *)
Record Cursor : Type := {
  description : option (list text);
  fetchall : result (list (list value));
  rowcount : Z
}.

(** A row of the foreign-key query: table, column, referenced table and
    column. *)
Record ForeignKey : Type := {
  fk_table : text;
  fk_column : text;
  ref_table : text;
  ref_column : text
}.

(** The database as db_utils.py reaches it.  [connect]: [Some msg] when
    [psycopg2.connect] raises.  [cursor_execute stmt]: the cursor after the
    statement, or the message of the error.  [commit]: [Some msg] when
    [connection.commit()] raises.  [public_columns]: the answer to the query
    over [information_schema.columns] of [get_table_info] (schema [public],
    ordered by table name and ordinal position).  [foreign_keys]: the answer
    to its foreign-key query. *)
Record Database : Type := {
  connect : option text;
  cursor_execute : text -> result Cursor;
  commit : option text;
  public_columns : result (list ColumnRow);
  foreign_keys : result (list ForeignKey)
}.

(** [get_db_connection] *)
Definition get_db_connection (db : Database) : result unit :=
  match connect db with
  | Some e => inl (txt "Failed to connect to the database: " ++ e)
  | None => inr tt
  end.

(** [table_info[table_name].append(line)], with [table_info[table_name] = []]
    first for a new table. *)
Definition dict_append (k : text) (line : text) (d : list (text * list text))
  : list (text * list text) :=
  match dict_get k d with
  | None => dict_set k [line] d
  | Some lines => dict_set k (lines ++ [line]) d
  end.

Definition column_line (row : ColumnRow) : text :=
  let nullable :=
    if Py.eqb (is_nullable row) (txt "YES") then txt "NULL" else txt "NOT NULL" in
  let default :=
    match column_default row with
    | None => []
    | Some d => if Py.falsy d then [] else txt "DEFAULT " ++ d
    end in
  Py.strip (column_name row ++ txt " " ++ data_type row ++ txt " "
            ++ nullable ++ txt " " ++ default).

(** [get_table_info] of db_utils.py *)
Definition get_table_info (db : Database) : text :=
  let attempt : result text :=
    match get_db_connection db with
    | inl e => inl e
    | inr _ =>
        match public_columns db with
        | inl e => inl e
        | inr tables =>
            if match tables with [] => true | _ :: _ => false end
            then inr (txt "No tables found in the database.")
            else
              let table_info :=
                fold_left (fun d row => dict_append (table_name row) (column_line row) d)
                          tables [] in
              let result :=
                map (fun item =>
                       txt "CREATE TABLE " ++ fst item ++ txt " (" ++ nl ++ txt "  "
                       ++ Py.join (txt "," ++ nl ++ txt "  ") (snd item)
                       ++ nl ++ txt ");")
                    table_info in
              match foreign_keys db with
              | inl e => inl e
              | inr fks =>
                  let result :=
                    match fks with
                    | [] => result
                    | _ :: _ =>
                        result ++ [nl ++ txt "-- Foreign Key Relationships:"]
                        ++ map (fun fk =>
                                  txt "-- " ++ fk_table fk ++ txt "." ++ fk_column fk
                                  ++ txt " -> " ++ ref_table fk ++ txt "."
                                  ++ ref_column fk)
                               fks
                    end in
                  inr (Py.join (nl ++ nl) result)
              end
        end
    end in
  match attempt with
  | inl e => txt "Error getting table information: " ++ e
  | inr info => info
  end.

(** What the function did on the connection. *)
Inductive event : Type :=
| Execute (stmt : text)
| Commit.

(** An element of the returned [results] list: a fetched row, or a message. *)
Inductive item : Type :=
| Row (r : list value)
| Message (m : text).

Definition modifies (query : text) : bool :=
  let q := Py.upper (Py.strip query) in
  Py.startswith (txt "INSERT") q || Py.startswith (txt "UPDATE") q
  || Py.startswith (txt "DELETE") q.

(** [execute_sql_query] of db_utils.py: the outcome and the trace. *)
Definition execute_sql_query (db : Database) (query : text)
  : result (list item * list text) * list event :=
  let attempt : result (list item * list text) * list event :=
    if Py.falsy query then (raise "Invalid SQL query", [])
    else
      let query := Py.strip query in
      let query :=
        if Py.endswith [semicolon] query then Py.drop_last query else query in
      if (0 <? Py.count semicolon query)%nat
      then (raise "Multiple SQL queries are not allowed", [])
      else
        match get_db_connection db with
        | inl e => (inl e, [])
        | inr _ =>
            match cursor_execute db query with
            | inl e => (inl e, [Execute query])
            | inr cursor =>
                let column_names :=
                  match description cursor with
                  | Some d => d
                  | None => []
                  end in
                match fetchall cursor with
                | inl e => (inl e, [Execute query])
                | inr rows =>
                    if modifies query then
                      match commit db with
                      | Some e => (inl e, [Execute query; Commit])
                      | None =>
                          (inr ([Message (txt "Query affected "
                                          ++ Py.str_of_int (rowcount cursor)
                                          ++ txt " rows")],
                                column_names),
                           [Execute query; Commit])
                      end
                    else (inr (map Row rows, column_names), [Execute query])
                end
            end
        end in
  match attempt with
  | (inl e, trace) => (inl (txt "Error executing SQL query: " ++ e), trace)
  | (inr r, trace) => (inr r, trace)
  end.

End DbUtils.

(** ** app.py: choosing a chart for a result *)

Module Presenter.

(** The kinds of column dtype pandas tells apart. *)
Inductive dtype : Type :=
| bool_ | int_ | uint_ | float_ | complex_
| object_ | datetime_ | timedelta_ | string_ | category_.

(** [pd.api.types.is_numeric_dtype]: numbers and booleans. *)
Definition is_numeric_dtype (d : dtype) : bool :=
  match d with
  | bool_ | int_ | uint_ | float_ | complex_ => true
  | _ => false
  end.

(** A value of a column: a missing one ([None], [NaN]), a boolean, a
    number or a string. *)
Inductive cell : Type :=
| Missing
| Flag (b : bool)
| Number (n : Z)
| Text (s : text).

(** A column: its label, its dtype and its values. *)
Record Series : Type := {
  series_name : text;
  series_dtype : dtype;
  series_values : list cell
}.

(** A data frame: its columns, and the length of its index ([df.shape[0]]),
    which is the number of values of each column. *)
Record DataFrame : Type := {
  df_columns : list Series;
  n_rows : nat
}.

(** [df.empty] *)
Definition empty (df : DataFrame) : bool :=
  (n_rows df =? 0)%nat || (List.length (df_columns df) =? 0)%nat.

(** The test of lines 224-236 of [on_message]: whether a bar chart is built. *)
Definition chart_eligible (df : DataFrame) : bool :=
  if empty df then false
  else if (List.length (df_columns df) =? 2)%nat && (1 <? n_rows df)%nat
          && (n_rows df <=? 15)%nat then
    match nth_error (df_columns df) 1 with
    | Some col => is_numeric_dtype (series_dtype col)
    | None => false
    end
  else false.

(** The [elements] of the reply: the chart when the frame is eligible and
    [px.bar] raises nothing. *)
Definition elements {Figure : Type} (bar : DataFrame -> result Figure)
    (df : DataFrame) : list Figure :=
  if chart_eligible df then
    match bar df with
    | inr fig => [fig]
    | inl _ => []
    end
  else [].

End Presenter.

(** ** app.py: running the sanitized query *)

Module Chat.

(** The engine as app.py uses it.  [connect]: [Some msg] when
    [engine.connect()] raises.  [read_sql_query stmt]: the frame
    [pd.read_sql_query(text(stmt), connection)] returns, or the message of
    the error it raises. *)
Record Engine : Type := {
  connect : option text;
  read_sql_query : text -> result Presenter.DataFrame
}.

(** [execute_sql] of app.py: the pair (frame, error), one of them [None],
    with the statements handed to [pd.read_sql_query]. *)
Definition execute_sql (db : Engine) (query : text)
  : (option Presenter.DataFrame * option text) * list text :=
  match App.clean_sql_query query with
  | inl e => ((None, Some e), [])
  | inr clean_query =>
      match connect db with
      | Some e => ((None, Some e), [])
      | None =>
          match read_sql_query db clean_query with
          | inl e => ((None, Some e), [clean_query])
          | inr df => ((Some df, None), [clean_query])
          end
      end
  end.

(** The tables [on_chat_start] names in its welcome message: those found in
    the schema text, or the two fallback names when none is found. *)
Definition welcome_tables (schema : text) : list text :=
  let tables := Re.findall Re.create_table schema in
  match tables with
  | [] => [txt "technologies"; txt "projects"]
  | _ :: _ => tables
  end.

End Chat.

(** ** sql_chain.py: the tool that runs a query *)

Module SqlChain.

(** [str(val)] for a value that is not [None]. *)
Definition str_of_value (v : value) : text :=
  match v with
  | Null => txt "None"
  | Int n => Py.str_of_int n
  | Str s => s
  end.

(** The cells of one element of the result list: [for val in row] with
    ["NULL"] for [None].  A fetched row gives one cell per value; the
    row-count message is a string, and iterating over a string gives its
    characters one by one. *)
Definition cells (it : DbUtils.item) : list text :=
  match it with
  | DbUtils.Row r =>
      map (fun val => match val with
                      | Null => txt "NULL"
                      | _ => str_of_value val
                      end) r
  | DbUtils.Message m => map (fun c => [c]) m
  end.

Definition table_line (fields : list text) : text :=
  txt "| " ++ Py.join (txt " | ") fields ++ txt " |" ++ nl.

(** [run_sql_query] of sql_chain.py: the text the tool returns, with what
    [execute_sql_query] did on the connection. *)
Definition run_sql_query (db : DbUtils.Database) (sql_query : text)
  : text * list DbUtils.event :=
  match DbUtils.execute_sql_query db sql_query with
  | (inr (result, column_names), trace) =>
      match result with
      | _ :: _ =>
          let formatted_result := table_line column_names in
          let formatted_result :=
            formatted_result
            ++ table_line (map (fun _ => txt "---") column_names) in
          (fold_left (fun formatted_result row =>
                        formatted_result ++ table_line (cells row))
                     result formatted_result,
           trace)
      | [] => (txt "No results found for this query.", trace)
      end
  | (inl e, trace) => (txt "Error executing SQL query: " ++ e, trace)
  end.

End SqlChain.

(** ** Auxiliary notions used to state the properties *)

(** The second half of [first_statement], on a text already stripped. *)
Definition cut_statement (query : text) : text :=
  let query :=
    if Py.endswith [semicolon] query then Py.drop_last query else query in
  if Py.contains [semicolon] query
  then Py.strip (Py.split_first semicolon query)
  else query.

(** The text is empty or starts with a character that is no whitespace. *)
Definition head_ok (s : text) : bool :=
  match s with
  | [] => true
  | c :: _ => negb (Py.is_space c)
  end.

(** The text is empty or ends with a character that is no whitespace. *)
Definition last_ok (s : text) : bool := head_ok (rev s).

(** A character that is no whitespace, no semicolon and no backtick. *)
Definition plain (c : ascii) : Prop :=
  Py.is_space c = false /\ c <> semicolon /\ c <> backtick.

(** The result of a call that returned. *)
Definition returned {A : Type} (r : result A) : bool :=
  match r with inr _ => true | inl _ => false end.

(** The text after comments and backticks are removed: the first three
    statements of [clean_sql_query]. *)
Definition cleaned (query : text) : text :=
  Py.remove_char backtick
    (Re.sub Re.block_comment (Re.sub Re.line_comment query)).

(** The text after comments are removed, backticks still in place. *)
Definition uncommented (query : text) : text :=
  Re.sub Re.block_comment (Re.sub Re.line_comment query).

(** The cleaned text starts with the keyword once stripped, or holds the
    keyword followed by whitespace: the two ways through the keyword step. *)
Definition recoverable (query : text) : bool :=
  begins_with_select (Py.strip (cleaned query)) ||
  match Re.search Re.select_rest (cleaned query) with
  | Some _ => true
  | None => false
  end.

(** The statement [execute_sql_query] of db_utils.py hands to the cursor:
    the query stripped, less one trailing semicolon. *)
Definition statement (query : text) : text :=
  let query := Py.strip query in
  if Py.endswith [semicolon] query then Py.drop_last query else query.

(** The text the error pattern [relation "(\w+)" does not exist] matches
    for a given table name. *)
Definition relation_pattern (name : text) : text :=
  txt "relation " ++ [Re.dquote] ++ name ++ [Re.dquote] ++ txt " does not exist".

(** The pattern, with a non-empty name of word characters, occurs in the
    message. *)
Definition occurs (name msg : text) : Prop :=
  name <> [] /\ forallb Re.is_word name = true /\
  exists pre post, msg = pre ++ relation_pattern name ++ post.

(** The enriched message: the missing table, then the live tables when there
    are any. *)
Definition missing_table_message (name : text) (tables : list text) : text :=
  txt "Table '" ++ name ++ txt "' does not exist. "
  ++ match tables with
     | [] => []
     | _ :: _ => txt "Available tables: " ++ Py.join (txt ", ") tables
     end.



(** [s.isascii()]: every character is below 128.  The character functions
    of [Py] and [Re] are Python's on such texts. *)
Definition isascii (s : text) : bool :=
  forallb (fun c => (nat_of_ascii c <? 128)%nat) s.

(** The content of the completion, when the call returned one, is ASCII. *)
Definition ascii_completion (completion : result text) : bool :=
  match completion with
  | inl _ => true
  | inr content => isascii content
  end.

(** The value is a number. *)
Definition is_number (c : Presenter.cell) : bool :=
  match c with
  | Presenter.Number _ => true
  | _ => false
  end.

(** Every value of the second column is a number. *)
Definition second_column_numbers (df : Presenter.DataFrame) : bool :=
  match nth_error (Presenter.df_columns df) 1 with
  | Some col => forallb is_number (Presenter.series_values col)
  | None => false
  end.

(** Chart eligibility in the words of the specification: two columns, more
    than one and at most fifteen rows, and every value of the second column
    numeric. *)
Definition spec_chart_eligible (df : Presenter.DataFrame) : bool :=
  (List.length (Presenter.df_columns df) =? 2)%nat
  && (1 <? Presenter.n_rows df)%nat && (Presenter.n_rows df <=? 15)%nat
  && second_column_numbers df.

(** A table of [pg_catalog.pg_tables] outside the two system schemas. *)
Definition user_table (db : Main.Engine) (t : text) : Prop :=
  exists schema,
    In (schema, t) (Main.pg_tables db) /\
    schema <> txt "pg_catalog" /\ schema <> txt "information_schema".


(** [a] is a contiguous part of [s]. *)
Definition infix (a s : text) : Prop := exists x y, s = x ++ a ++ y.

(** The text [generate_sql_query] hands to the sanitizer: the completion
    stripped, its code fences removed, stripped again. *)
Definition candidate (content : text) : text :=
  Py.strip (Re.sub Re.code_fence (Py.strip content)).

(** The dict [get_table_info] of db_utils.py builds from the catalogue rows:
    for each table the lines of its columns. *)
Definition grouped (rows : list ColumnRow) : list (text * list text) :=
  fold_left (fun d row =>
               DbUtils.dict_append (table_name row) (DbUtils.column_line row) d)
            rows [].

(** The column lines of the rows of table [k], in row order. *)
Definition lines_of (k : text) (rows : list ColumnRow) : list text :=
  map DbUtils.column_line (filter (fun row => Py.eqb k (table_name row)) rows).


(** The block of db_utils.py's schema text for one table of the dict. *)
Definition table_block (item : text * list text) : text :=
  txt "CREATE TABLE " ++ fst item ++ txt " (" ++ nl ++ txt "  "
  ++ Py.join (txt "," ++ nl ++ txt "  ") (snd item) ++ nl ++ txt ");".

(** The foreign-key annotations of db_utils.py's schema text. *)
Definition foreign_key_lines (fks : list DbUtils.ForeignKey) : list text :=
  match fks with
  | [] => []
  | _ :: _ =>
      [nl ++ txt "-- Foreign Key Relationships:"]
      ++ map (fun fk =>
                txt "-- " ++ DbUtils.fk_table fk ++ txt "." ++ DbUtils.fk_column fk
                ++ txt " -> " ++ DbUtils.ref_table fk ++ txt "."
                ++ DbUtils.ref_column fk)
             fks
  end.

(** ** Sample frames and databases *)

(** Three rows of a name and a boolean. *)
Definition flags_frame : Presenter.DataFrame :=
  {| Presenter.df_columns :=
       [ {| Presenter.series_name := txt "name";
            Presenter.series_dtype := Presenter.object_;
            Presenter.series_values :=
              [Presenter.Text (txt "a"); Presenter.Text (txt "b");
               Presenter.Text (txt "c")] |};
         {| Presenter.series_name := txt "active";
            Presenter.series_dtype := Presenter.bool_;
            Presenter.series_values :=
              [Presenter.Flag true; Presenter.Flag false; Presenter.Flag true] |} ];
     Presenter.n_rows := 3 |}.

(** Three rows of a name and a number, the numbers held as Python objects
    in a column of object dtype. *)
Definition numbers_frame : Presenter.DataFrame :=
  {| Presenter.df_columns :=
       [ {| Presenter.series_name := txt "name";
            Presenter.series_dtype := Presenter.object_;
            Presenter.series_values :=
              [Presenter.Text (txt "a"); Presenter.Text (txt "b");
               Presenter.Text (txt "c")] |};
         {| Presenter.series_name := txt "total";
            Presenter.series_dtype := Presenter.object_;
            Presenter.series_values :=
              [Presenter.Number 10; Presenter.Number 20; Presenter.Number 30] |} ];
     Presenter.n_rows := 3 |}.

Definition sample_columns : list ColumnRow :=
  [ {| table_schema := txt "public"; table_name := txt "projects";
       column_name := txt "id"; data_type := txt "integer";
       column_default := None; is_nullable := txt "NO" |};
    {| table_schema := txt "public"; table_name := txt "projects";
       column_name := txt "status"; data_type := txt "text";
       column_default := Some (txt "'new'"); is_nullable := txt "YES" |};
    {| table_schema := txt "public"; table_name := txt "users";
       column_name := txt "email"; data_type := txt "text";
       column_default := None; is_nullable := txt "NO" |} ].

(** An engine with two user tables, one of them hidden, that answers every
    statement with one row. *)
Definition sample_engine : Main.Engine :=
  {| Main.connect := None;
     Main.pg_tables := [ (txt "public", txt "projects");
                         (txt "public", txt "users");
                         (txt "pg_catalog", txt "pg_class") ];
     Main.column_query := fun name =>
       inr (filter (fun c => Py.eqb (table_name c) name) sample_columns);
     Main.run := fun _ => inr ([txt "project_count"], [[Int 7]]) |}.


(** An engine whose live tables are [bar] and [baz]. *)
Definition bar_baz_engine : Main.Engine :=
  {| Main.connect := None;
     Main.pg_tables := [ (txt "public", txt "bar"); (txt "public", txt "baz") ];
     Main.column_query := fun _ => inr [];
     Main.run := fun _ => inl (relation_pattern (txt "foo")) |}.

(** An engine whose database holds no user table. *)
Definition empty_engine : Main.Engine :=
  {| Main.connect := None;
     Main.pg_tables := [ (txt "pg_catalog", txt "pg_class") ];
     Main.column_query := fun _ => inr [];
     Main.run := fun _ => inl (txt "relation does not exist") |}.

(** The cursor psycopg2 leaves after a statement that returns no rows:
    there is no description, and [fetchall] raises [ProgrammingError] with
    the message [no results to fetch]. *)
Definition no_result_cursor (affected : Z) : DbUtils.Cursor :=
  {| DbUtils.description := None;
     DbUtils.fetchall := inl (txt "no results to fetch");
     DbUtils.rowcount := affected |}.

(** The cursor after a statement that returns rows. *)
Definition result_cursor (names : list text) (rows : list (list value))
  : DbUtils.Cursor :=
  {| DbUtils.description := Some names;
     DbUtils.fetchall := inr rows;
     DbUtils.rowcount := Z.of_nat (List.length rows) |}.

(** An engine of app.py that answers every statement with the frame of
    names and booleans. *)
Definition flags_engine : Chat.Engine :=
  {| Chat.connect := None;
     Chat.read_sql_query := fun _ => inr flags_frame |}.

(** A psycopg2 database with a table of three rows.  A statement that starts
    with SELECT returns no row; one with a RETURNING clause returns the three
    rows it touched; any other statement returns no result set and touches
    three rows. *)
Definition sample_database : DbUtils.Database :=
  {| DbUtils.connect := None;
     DbUtils.cursor_execute := fun stmt =>
       if begins_with_select stmt then inr (result_cursor [txt "id"] [])
       else if Py.contains (txt "RETURNING") (Py.upper stmt)
       then inr (result_cursor [txt "id"] [[Int 1]; [Int 2]; [Int 3]])
       else inr (no_result_cursor 3);
     DbUtils.commit := None;
     DbUtils.public_columns := inr sample_columns;
     DbUtils.foreign_keys := inr [] |}.

(** A psycopg2 database that answers a statement that starts with SELECT
    with two rows of two columns. *)
Definition listing_database : DbUtils.Database :=
  {| DbUtils.connect := None;
     DbUtils.cursor_execute := fun stmt =>
       if begins_with_select stmt
       then inr (result_cursor [txt "id"; txt "status"]
                   [[Int 1; Str (txt "new")]; [Int 2; Null]])
       else inr (no_result_cursor 0);
     DbUtils.commit := None;
     DbUtils.public_columns := inr [];
     DbUtils.foreign_keys := inr [] |}.

(** * Properties *)

(** ** Facts about the string functions *)

Section StringFacts.

Import Py.

Lemma startswith_app (p r : text) : startswith p (p ++ r) = true.
Proof.
  induction p as [|a p IH]; simpl; [reflexivity|].
  now rewrite Ascii.eqb_refl.
Qed.

Lemma startswith_true (p s : text) :
  startswith p s = true -> exists r, s = p ++ r.
Proof.
  revert s; induction p as [|a p IH]; intros s H.
  - now exists s.
  - destruct s as [|b s]; simpl in H; [discriminate|].
    apply andb_prop in H as [Hab Hps].
    apply Ascii.eqb_eq in Hab; subst b.
    destruct (IH _ Hps) as [r ->]. now exists r.
Qed.

Lemma startswith_app_l (p s b : text) :
  startswith p s = true -> startswith p (s ++ b) = true.
Proof.
  intros H. destruct (startswith_true _ _ H) as [r ->].
  rewrite <- app_assoc. apply startswith_app.
Qed.

Lemma contains_startswith (p s : text) :
  startswith p s = true -> contains p s = true.
Proof. intros H. destruct s; simpl in *; now rewrite H. Qed.

Lemma contains_cons (p : text) (c : ascii) (s : text) :
  contains p s = true -> contains p (c :: s) = true.
Proof.
  intros H. change (contains p (c :: s))
    with (startswith p (c :: s) || contains p s).
  rewrite H. apply orb_true_r.
Qed.

Lemma contains_app_r (p a s : text) :
  contains p s = true -> contains p (a ++ s) = true.
Proof.
  intros H. induction a as [|c a IH]; [exact H|].
  simpl app. now apply contains_cons.
Qed.

Lemma contains_app_l (p s b : text) :
  contains p s = true -> contains p (s ++ b) = true.
Proof.
  induction s as [|c s IH]; intros H.
  - simpl in H. rewrite orb_false_r in H.
    apply contains_startswith. now apply (startswith_app_l p [] b).
  - change (contains p (c :: s))
      with (startswith p (c :: s) || contains p s) in H.
    apply orb_prop in H as [H|H].
    + apply contains_startswith. now apply (startswith_app_l p (c :: s) b).
    + simpl app. apply contains_cons. now apply IH.
Qed.

Lemma contains_char (c : ascii) (s : text) :
  contains [c] s = true <-> In c s.
Proof.
  induction s as [|b s IH]; simpl.
  - split; [discriminate | tauto].
  - rewrite andb_true_r. split.
    + intros H. apply orb_prop in H as [H|H].
      * apply Ascii.eqb_eq in H. now left.
      * right. now apply IH.
    + intros [->|H].
      * now rewrite Ascii.eqb_refl.
      * apply IH in H. simpl in H. rewrite H. apply orb_true_r.
Qed.

Lemma contains_char_false (c : ascii) (s : text) :
  contains [c] s = false <-> ~ In c s.
Proof.
  rewrite <- contains_char. destruct (contains [c] s); split; intros H;
    try reflexivity; try discriminate; try (intros ?; discriminate).
  now elim H.
Qed.

Lemma endswith_char_In (c : ascii) (s : text) :
  endswith [c] s = true -> In c s.
Proof.
  unfold endswith. simpl rev. intros H.
  apply startswith_true in H as [r Hr].
  apply in_rev. rewrite Hr. now left.
Qed.

Lemma takewhile_dropwhile (f : ascii -> bool) (s : text) :
  takewhile f s ++ dropwhile f s = s.
Proof.
  induction s as [|c s IH]; simpl; [reflexivity|].
  destruct (f c); simpl; [now rewrite IH | reflexivity].
Qed.

Lemma takewhile_Forall (f : ascii -> bool) (s : text) :
  Forall (fun c => f c = true) (takewhile f s).
Proof.
  induction s as [|c s IH]; simpl; [constructor|].
  destruct (f c) eqn:E; constructor; assumption.
Qed.

Lemma takewhile_all (f : ascii -> bool) (s : text) :
  Forall (fun c => f c = true) s -> takewhile f s = s.
Proof.
  induction 1 as [|c s Hc _ IH]; simpl; [reflexivity|].
  now rewrite Hc, IH.
Qed.

Lemma takewhile_app (f : ascii -> bool) (p r : text) :
  Forall (fun c => f c = true) p ->
  takewhile f (p ++ r) = p ++ takewhile f r.
Proof.
  induction 1 as [|c p Hc _ IH]; simpl; [reflexivity|].
  now rewrite Hc, IH.
Qed.

Lemma takewhile_stop (f : ascii -> bool) (p : text) (c : ascii) (r : text) :
  Forall (fun x => f x = true) p -> f c = false ->
  takewhile f (p ++ c :: r) = p.
Proof.
  intros Hp Hc. rewrite takewhile_app by assumption.
  simpl. rewrite Hc. apply app_nil_r.
Qed.

Lemma dropwhile_app_last (f : ascii -> bool) (l : text) (c : ascii) :
  f c = false -> dropwhile f (l ++ [c]) = dropwhile f l ++ [c].
Proof.
  intros Hc. induction l as [|b l IH]; simpl.
  - now rewrite Hc.
  - destruct (f b); [exact IH | reflexivity].
Qed.

Lemma Forall_dropwhile (P : ascii -> Prop) (f : ascii -> bool) (s : text) :
  Forall P s -> Forall P (dropwhile f s).
Proof.
  induction 1 as [|c s Hc Hs IH]; simpl; [constructor|].
  destruct (f c); [exact IH | now constructor].
Qed.

Lemma Forall_takewhile (P : ascii -> Prop) (f : ascii -> bool) (s : text) :
  Forall P s -> Forall P (takewhile f s).
Proof.
  induction 1 as [|c s Hc Hs IH]; simpl; [constructor|].
  destruct (f c); now constructor.
Qed.

Lemma Forall_drop_last (P : ascii -> Prop) (s : text) :
  Forall P s -> Forall P (drop_last s).
Proof.
  unfold drop_last.
  induction 1 as [|c s Hc Hs IH]; simpl; [constructor|].
  destruct s; [constructor | now constructor].
Qed.

Lemma Forall_rstrip (P : ascii -> Prop) (s : text) :
  Forall P s -> Forall P (rstrip s).
Proof.
  intros H. unfold rstrip.
  apply Forall_rev, Forall_dropwhile, Forall_rev, H.
Qed.

Lemma Forall_strip (P : ascii -> Prop) (s : text) :
  Forall P s -> Forall P (strip s).
Proof.
  intros H. unfold strip, lstrip.
  now apply Forall_rstrip, Forall_dropwhile.
Qed.

(** Stripping on the right keeps a character that is no whitespace, and all
    that stands before it. *)
Lemma rstrip_cons_keep (c : ascii) (t : text) :
  is_space c = false -> rstrip (c :: t) = c :: rstrip t.
Proof.
  intros Hc. unfold rstrip. simpl rev.
  rewrite dropwhile_app_last by assumption.
  rewrite rev_app_distr. reflexivity.
Qed.

Lemma rstrip_app_keep (p r : text) :
  Forall (fun c => is_space c = false) p -> rstrip (p ++ r) = p ++ rstrip r.
Proof.
  induction 1 as [|c p Hc _ IH]; simpl; [reflexivity|].
  rewrite rstrip_cons_keep by assumption. now rewrite IH.
Qed.

Lemma strip_app_keep (p r : text) :
  p <> [] -> Forall (fun c => is_space c = false) p ->
  strip (p ++ r) = p ++ rstrip r.
Proof.
  intros Hne Hp. unfold strip, lstrip.
  destruct p as [|c p]; [congruence|].
  inversion Hp as [|? ? Hc Hp']; subst.
  simpl. rewrite Hc.
  change (c :: p ++ r) with ((c :: p) ++ r).
  now apply rstrip_app_keep.
Qed.

Lemma rstrip_prefix (s : text) : exists w, s = rstrip s ++ w.
Proof.
  exists (rev (takewhile is_space (rev s))). unfold rstrip.
  rewrite <- rev_app_distr, takewhile_dropwhile. symmetry. apply rev_involutive.
Qed.

Lemma lstrip_suffix (s : text) : exists w, s = w ++ lstrip s.
Proof.
  exists (takewhile is_space s). symmetry. apply takewhile_dropwhile.
Qed.

Lemma strip_infix (s : text) : exists a b, s = a ++ strip s ++ b.
Proof.
  destruct (lstrip_suffix s) as [a Ha].
  destruct (rstrip_prefix (lstrip s)) as [b Hb].
  exists a, b. unfold strip. now rewrite <- Hb.
Qed.

Lemma upper_app (a b : text) : upper (a ++ b) = upper a ++ upper b.
Proof. apply map_app. Qed.

End StringFacts.

(** ** Facts about whitespace at the ends of a text *)

Section StripFacts.

Import Py.

Lemma lstrip_head_ok (s : text) : head_ok s = true -> lstrip s = s.
Proof.
  unfold lstrip. destruct s as [|c s]; simpl; [reflexivity|].
  intros H. apply negb_true_iff in H. now rewrite H.
Qed.

Lemma head_ok_dropwhile (s : text) : head_ok (dropwhile is_space s) = true.
Proof.
  induction s as [|c s IH]; simpl; [reflexivity|].
  destruct (is_space c) eqn:E; [exact IH|]. simpl. now rewrite E.
Qed.

Lemma rstrip_last_ok (s : text) : last_ok s = true -> rstrip s = s.
Proof.
  unfold last_ok, rstrip. intros H.
  change (dropwhile is_space (rev s)) with (lstrip (rev s)).
  rewrite lstrip_head_ok by assumption. apply rev_involutive.
Qed.

Lemma last_ok_rstrip (s : text) : last_ok (rstrip s) = true.
Proof.
  unfold last_ok, rstrip. rewrite rev_involutive. apply head_ok_dropwhile.
Qed.

Lemma head_ok_rstrip (s : text) : head_ok s = true -> head_ok (rstrip s) = true.
Proof.
  destruct s as [|c s]; [reflexivity|]. simpl. intros H.
  apply negb_true_iff in H. rewrite rstrip_cons_keep by assumption.
  simpl. now rewrite H.
Qed.

Lemma head_ok_strip (s : text) : head_ok (strip s) = true.
Proof. apply head_ok_rstrip, head_ok_dropwhile. Qed.

Lemma last_ok_strip (s : text) : last_ok (strip s) = true.
Proof. apply last_ok_rstrip. Qed.

Lemma strip_fixed (s : text) :
  head_ok s = true -> last_ok s = true -> strip s = s.
Proof.
  intros Hh Hl. unfold strip. rewrite lstrip_head_ok by assumption.
  now apply rstrip_last_ok.
Qed.

Lemma strip_strip (s : text) : strip (strip s) = strip s.
Proof. apply strip_fixed; [apply head_ok_strip | apply last_ok_strip]. Qed.

Lemma last_ok_snoc (s : text) (c : ascii) :
  is_space c = false -> last_ok (s ++ [c]) = true.
Proof.
  intros H. unfold last_ok. rewrite rev_app_distr. simpl. now rewrite H.
Qed.

Lemma head_ok_app (s r : text) :
  s <> [] -> head_ok s = true -> head_ok (s ++ r) = true.
Proof. destruct s; [congruence | trivial]. Qed.

(** A prefix of a text that starts with no whitespace starts with none. *)
Lemma head_ok_prefix (a b : text) : head_ok (a ++ b) = true -> head_ok a = true.
Proof. destruct a; trivial. Qed.

End StripFacts.

(** ** Facts about the keyword *)

Section KeywordFacts.

Import Py.

(** A character that reads as a letter of the keyword is no whitespace, no
    semicolon and no backtick. *)
Lemma keyword_char (c : ascii) :
  In (upper_char c) (txt "SELECT") ->
  is_space c = false /\ c <> semicolon /\ c <> backtick.
Proof.
  destruct c as [b0 b1 b2 b3 b4 b5 b6 b7].
  destruct b0, b1, b2, b3, b4, b5, b6, b7; vm_compute;
    intros H; repeat split; try reflexivity; try discriminate;
    repeat (destruct H as [H|H]; [discriminate|]); destruct H.
Qed.

Lemma begins_split (s : text) :
  begins_with_select s = true ->
  exists p r, s = p ++ r /\ upper p = txt "SELECT".
Proof.
  unfold begins_with_select. intros H.
  apply startswith_true in H as [r' Hr'].
  exists (firstn 6 s), (skipn 6 s). split.
  - symmetry. apply firstn_skipn.
  - unfold upper in *. rewrite <- firstn_map, Hr'. reflexivity.
Qed.

Lemma begins_join (p r : text) :
  upper p = txt "SELECT" -> begins_with_select (p ++ r) = true.
Proof.
  intros H. unfold begins_with_select. rewrite upper_app, H.
  apply startswith_app.
Qed.

Lemma keyword_plain (p : text) :
  upper p = txt "SELECT" -> p <> [] /\ Forall plain p.
Proof.
  intros H. split.
  - intros ->. discriminate.
  - apply Forall_forall. intros c Hc. apply keyword_char.
    rewrite <- H. unfold upper. now apply in_map.
Qed.

Lemma begins_head_ok (s : text) :
  begins_with_select s = true -> head_ok s = true.
Proof.
  intros H. destruct (begins_split _ H) as (p & r & -> & Hp).
  destruct (keyword_plain _ Hp) as [Hne Hall].
  destruct p as [|c p]; [congruence|].
  inversion Hall as [|? ? [Hc _] _]; subst. simpl. now rewrite Hc.
Qed.

(** A text that starts with the keyword still does after it is stripped. *)
Lemma begins_strip (s : text) :
  begins_with_select s = true -> begins_with_select (strip s) = true.
Proof.
  intros H. destruct (begins_split _ H) as (p & r & -> & Hp).
  destruct (keyword_plain _ Hp) as [Hne Hall].
  rewrite strip_app_keep; [now apply begins_join | assumption |].
  eapply Forall_impl; [|exact Hall]. now intros c [Hc _].
Qed.

(** A text one of whose prefixes starts with the keyword starts with it. *)
Lemma begins_prefix (a b : text) :
  begins_with_select a = true -> begins_with_select (a ++ b) = true.
Proof.
  unfold begins_with_select. rewrite upper_app. apply startswith_app_l.
Qed.

End KeywordFacts.

(** ** Facts about the regular expressions *)

Section RegexFacts.

Import Py.

(** Where the pattern matches nowhere, substitution changes nothing.  The
    pattern is known to match only texts that start with [p]. *)
Lemma sub_unchanged (m : text -> option nat) (p s : text) :
  (forall s' n, m s' = Some n -> startswith p s' = true) ->
  contains p s = false -> Re.sub m s = s.
Proof.
  intros Hm. unfold Re.sub. induction s as [|c s IH]; intros H.
  - reflexivity.
  - change (contains p (c :: s))
      with (startswith p (c :: s) || contains p s) in H.
    apply orb_false_elim in H as [H1 H2].
    cbn [Re.sub_go]. destruct (m (c :: s)) as [n|] eqn:E.
    + apply Hm in E. congruence.
    + now rewrite IH.
Qed.

Lemma line_comment_starts (s : text) (n : nat) :
  Re.line_comment s = Some n -> startswith (txt "--") s = true.
Proof.
  unfold Re.line_comment. now destruct (startswith (txt "--") s).
Qed.

Lemma block_comment_starts (s : text) (n : nat) :
  Re.block_comment s = Some n -> startswith (txt "/*") s = true.
Proof.
  unfold Re.block_comment. now destruct (startswith (txt "/*") s).
Qed.

(** A search that succeeds found its value at a suffix of the text, and at
    no suffix that starts earlier. *)
Lemma search_found {A : Type} (m : text -> option A) (s : text) (g : A) :
  Re.search m s = Some g ->
  exists pre s', s = pre ++ s' /\ m s' = Some g.
Proof.
  induction s as [|c s IH]; cbn [Re.search]; intros H.
  - exists [], []. split; [reflexivity|]. now destruct (m []).
  - destruct (m (c :: s)) as [g'|] eqn:E.
    + exists [], (c :: s). split; [reflexivity | congruence].
    + destruct (IH H) as (pre & s' & -> & Hs').
      exists (c :: pre), s'. now split.
Qed.

Lemma search_none {A : Type} (m : text -> option A) (pre s' : text) :
  Re.search m (pre ++ s') = None -> m s' = None.
Proof.
  induction pre as [|c pre IH]; simpl app; intros H.
  - destruct s'; cbn [Re.search] in H; now destruct (m _).
  - cbn [Re.search] in H. destruct (m (c :: pre ++ s')); [discriminate|].
    now apply IH.
Qed.

Lemma search_some {A : Type} (m : text -> option A) (pre s' : text) (g : A) :
  m s' = Some g -> exists g', Re.search m (pre ++ s') = Some g'.
Proof.
  intros H. destruct (Re.search m (pre ++ s')) as [g'|] eqn:E.
  - now exists g'.
  - apply search_none in E. congruence.
Qed.

Lemma select_rest_some (s m : text) :
  Re.select_rest s = Some m -> m = s /\ begins_with_select s = true.
Proof.
  unfold Re.select_rest, begins_with_select.
  destruct (startswith (txt "SELECT") (upper s)); [|discriminate].
  destruct (skipn 6 s) as [|c r]; [discriminate|].
  destruct (is_space c); [|discriminate].
  intros H. now inversion H.
Qed.

(** What [re.search] returns for the keyword pattern is a suffix of the text
    that starts with the keyword. *)
Lemma search_select (s m : text) :
  Re.search Re.select_rest s = Some m ->
  (exists pre, s = pre ++ m) /\ begins_with_select m = true.
Proof.
  intros H. destruct (search_found _ _ _ H) as (pre & s' & -> & Hs').
  apply select_rest_some in Hs' as [-> Hb]. split; [now exists pre | exact Hb].
Qed.

Lemma search_select_contains (s m : text) :
  Re.search Re.select_rest s = Some m ->
  contains (txt "SELECT") (upper s) = true.
Proof.
  intros H. destruct (search_select _ _ H) as [[pre ->] Hb].
  rewrite upper_app. apply contains_app_r, contains_startswith, Hb.
Qed.

End RegexFacts.

(** ** Facts about the sanitizers *)

Section SanitizerFacts.

Import Py.

Lemma first_statement_cut (t : text) :
  first_statement t = cut_statement (strip t).
Proof. reflexivity. Qed.

Lemma main_clean_unfold (q : text) :
  Main.clean_sql_query q =
  match select_part q with
  | inl e => inl e
  | inr t => inr (first_statement t)
  end.
Proof. reflexivity. Qed.

Lemma app_clean_unfold (q : text) :
  App.clean_sql_query q =
  match select_part q with
  | inl e => inl e
  | inr t =>
      inr (if negb (endswith [semicolon] (strip t))
           then strip t ++ [semicolon] else strip t)
  end.
Proof. reflexivity. Qed.

Lemma remove_char_Forall (c : ascii) (s : text) :
  Forall (fun x => x <> c) (remove_char c s).
Proof.
  unfold remove_char. apply Forall_forall. intros x Hx.
  apply filter_In in Hx as [_ Hx]. apply negb_true_iff in Hx.
  intros ->. now rewrite Ascii.eqb_refl in Hx.
Qed.

Lemma remove_char_unchanged (c : ascii) (s : text) :
  ~ In c s -> remove_char c s = s.
Proof.
  unfold remove_char. induction s as [|x s IH]; intros H; simpl.
  - reflexivity.
  - destruct (Ascii.eqb x c) eqn:E.
    + apply Ascii.eqb_eq in E. subst. elim H. now left.
    + simpl. rewrite IH; [reflexivity|]. intros Hin. apply H. now right.
Qed.

Lemma select_part_cases (q t : text) :
  select_part q = inr t ->
  (t = cleaned q /\ begins_with_select (strip (cleaned q)) = true) \/
  (begins_with_select (strip (cleaned q)) = false /\
   Re.search Re.select_rest (cleaned q) = Some t).
Proof.
  unfold select_part, begins_with_select, raise. cbv zeta. fold (cleaned q).
  destruct (startswith (txt "SELECT") (upper (strip (cleaned q)))) eqn:E;
    cbn [negb].
  - intros H. inversion H. now left.
  - destruct (contains (txt "SELECT") (upper (cleaned q))); [|discriminate].
    destruct (Re.search Re.select_rest (cleaned q)) as [m|] eqn:Em;
      [|discriminate].
    intros H. inversion H. subst. now right.
Qed.

(** What the keyword step lets through starts with the keyword once
    stripped, and holds no backtick. *)
Lemma select_part_begins (q t : text) :
  select_part q = inr t -> begins_with_select (strip t) = true.
Proof.
  intros H. destruct (select_part_cases _ _ H) as [[-> Hb]|[_ Hs]].
  - exact Hb.
  - apply begins_strip. now destruct (search_select _ _ Hs).
Qed.

Lemma select_part_no_backtick (q t : text) :
  select_part q = inr t -> Forall (fun c => c <> backtick) t.
Proof.
  intros H. destruct (select_part_cases _ _ H) as [[-> _]|[_ Hs]].
  - apply remove_char_Forall.
  - destruct (search_select _ _ Hs) as [[pre Hpre] _].
    assert (HF : Forall (fun c => c <> backtick) (cleaned q))
      by apply remove_char_Forall.
    rewrite Hpre in HF. now apply Forall_app in HF as [_ HF].
Qed.

(** The keyword step fails with one of its two messages exactly when the
    cleaned text neither starts with the keyword nor holds the keyword
    followed by whitespace. *)
Lemma select_part_returns (q : text) :
  returned (select_part q) = recoverable q.
Proof.
  unfold recoverable, select_part, begins_with_select, raise. cbv zeta.
  fold (cleaned q).
  destruct (startswith (txt "SELECT") (upper (strip (cleaned q))));
    cbn [negb orb]; [reflexivity|].
  destruct (Re.search Re.select_rest (cleaned q)) as [m|] eqn:Em.
  - now rewrite (search_select_contains _ _ Em).
  - now destruct (contains (txt "SELECT") (upper (cleaned q))).
Qed.

(** Cutting down to the first statement keeps a prefix made of plain
    characters. *)
Lemma cut_statement_keeps (p r : text) :
  p <> [] -> Forall plain p -> exists r', cut_statement (p ++ r) = p ++ r'.
Proof.
  intros Hne Hp. unfold cut_statement.
  assert (Hsp : Forall (fun c => is_space c = false) p).
  { eapply Forall_impl; [|exact Hp]. now intros c [Hc _]. }
  assert (Hsemi : Forall (fun c => negb (Ascii.eqb c semicolon) = true) p).
  { eapply Forall_impl; [|exact Hp]. intros c (_ & Hc & _).
    apply negb_true_iff. now apply Ascii.eqb_neq. }
  assert (Hnot : ~ In semicolon p).
  { intros Hin. rewrite Forall_forall in Hp. now destruct (Hp _ Hin) as (_ & Hc & _). }
  assert (H1 : exists r1,
    (if endswith [semicolon] (p ++ r) then drop_last (p ++ r) else p ++ r)
    = p ++ r1).
  { destruct (endswith [semicolon] (p ++ r)) eqn:E; [|now exists r].
    destruct r as [|c r].
    - rewrite app_nil_r in E. apply endswith_char_In in E. contradiction.
    - exists (removelast (c :: r)). unfold drop_last.
      apply removelast_app. discriminate. }
  destruct H1 as [r1 ->].
  destruct (contains [semicolon] (p ++ r1)); [|now exists r1].
  unfold split_first. rewrite takewhile_app by assumption.
  rewrite strip_app_keep by assumption. eauto.
Qed.

Lemma cut_statement_begins (t : text) :
  begins_with_select t = true -> begins_with_select (cut_statement t) = true.
Proof.
  intros H. destruct (begins_split _ H) as (p & r & -> & Hp).
  destruct (keyword_plain _ Hp) as [Hne Hall].
  destruct (cut_statement_keeps p r Hne Hall) as [r' ->].
  now apply begins_join.
Qed.

Lemma cut_statement_no_semicolon (t : text) : ~ In semicolon (cut_statement t).
Proof.
  unfold cut_statement.
  set (t1 := if endswith [semicolon] t then drop_last t else t).
  destruct (contains [semicolon] t1) eqn:E.
  - intros Hin.
    assert (HF : Forall (fun c => negb (Ascii.eqb c semicolon) = true)
                   (strip (split_first semicolon t1))).
    { apply Forall_strip. apply takewhile_Forall. }
    rewrite Forall_forall in HF. apply HF in Hin.
    now rewrite Ascii.eqb_refl in Hin.
  - now apply contains_char_false.
Qed.

Lemma Forall_cut_statement (P : ascii -> Prop) (t : text) :
  Forall P t -> Forall P (cut_statement t).
Proof.
  intros H. unfold cut_statement.
  set (t1 := if endswith [semicolon] t then drop_last t else t).
  assert (H1 : Forall P t1).
  { unfold t1. destruct (endswith [semicolon] t); [now apply Forall_drop_last | exact H]. }
  destruct (contains [semicolon] t1); [|exact H1].
  apply Forall_strip. now apply Forall_takewhile.
Qed.

(** The three facts about what main.py's sanitizer returns. *)
Lemma main_clean_post (q out : text) :
  Main.clean_sql_query q = inr out ->
  begins_with_select out = true /\ ~ In semicolon out /\ ~ In backtick out.
Proof.
  rewrite main_clean_unfold. destruct (select_part q) as [e|t] eqn:E;
    [discriminate|]. intros H. inversion H. subst out. clear H.
  rewrite first_statement_cut. repeat split.
  - apply cut_statement_begins. now apply (select_part_begins q).
  - apply cut_statement_no_semicolon.
  - intros Hin.
    assert (HF : Forall (fun c => c <> backtick) (cut_statement (strip t))).
    { apply Forall_cut_statement, Forall_strip. now apply (select_part_no_backtick q). }
    rewrite Forall_forall in HF. now apply (HF _ Hin).
Qed.

(** And about what app.py's returns. *)
Lemma app_clean_post (q out : text) :
  App.clean_sql_query q = inr out ->
  begins_with_select out = true /\ endswith [semicolon] out = true /\
  ~ In backtick out.
Proof.
  rewrite app_clean_unfold. destruct (select_part q) as [e|t] eqn:E;
    [discriminate|]. intros H. inversion H. subst out. clear H.
  pose proof (select_part_begins _ _ E) as Hb.
  pose proof (select_part_no_backtick _ _ E) as Hn.
  destruct (endswith [semicolon] (strip t)) eqn:Ee; simpl.
  - repeat split; [exact Hb | exact Ee |].
    intros Hin. apply (Forall_strip _ _) in Hn.
    rewrite Forall_forall in Hn. now apply (Hn _ Hin).
  - repeat split.
    + now apply begins_prefix.
    + unfold endswith. rewrite rev_app_distr. reflexivity.
    + intros Hin. apply in_app_or in Hin as [Hin|[Hin|[]]].
      * apply (Forall_strip _ _) in Hn.
        rewrite Forall_forall in Hn. now apply (Hn _ Hin).
      * discriminate.
Qed.

End SanitizerFacts.

(** ** Where the stated postcondition of the sanitizer fails (C1) *)

Section SanitizerPostcondition.

Import Py.

(** C1, as stated, fails.  The text [x SELECT] holds the keyword and is
    refused; the removal of a block comment may join two dashes into a
    comment marker that stays in the output; and the sanitizer of app.py
    keeps every statement. *)
Lemma clean_sql_query_postcondition_fails :
  (contains (txt "SELECT") (txt "x SELECT") = true /\
   Main.clean_sql_query (txt "x SELECT")
   = raise "No valid SELECT statement found in query") /\
  (contains (txt "SELECT") (txt "SELECT 1 -/**/- 2") = true /\
   Main.clean_sql_query (txt "SELECT 1 -/**/- 2") = inr (txt "SELECT 1 -- 2") /\
   contains (txt "--") (txt "SELECT 1 -- 2") = true) /\
  App.clean_sql_query (txt "SELECT 1; DROP TABLE t")
  = inr (txt "SELECT 1; DROP TABLE t;").
Proof. repeat split; reflexivity. Qed.

End SanitizerPostcondition.

(** ** One statement, and no semicolon added (C3) *)

Section SingleStatement.

Import Py.

Lemma endswith_char_snoc (c : ascii) (s : text) :
  endswith [c] s = true -> s = drop_last s ++ [c].
Proof.
  unfold endswith, drop_last. simpl rev. intros H.
  apply startswith_true in H as [r Hr]. simpl in Hr.
  assert (Hs : s = rev r ++ [c]).
  { rewrite <- (rev_involutive s), Hr. reflexivity. }
  rewrite Hs at 2. rewrite removelast_last. exact Hs.
Qed.

Lemma takewhile_app_stop (f : ascii -> bool) (u r : text) :
  (exists c, In c u /\ f c = false) ->
  takewhile f (u ++ r) = takewhile f u.
Proof.
  induction u as [|x u IH]; intros (c & Hin & Hc).
  - destruct Hin.
  - simpl. destruct (f x) eqn:E; [|reflexivity].
    f_equal. apply IH. destruct Hin as [->|Hin]; [congruence|].
    now exists c.
Qed.

(** Of a stripped text, [cut_statement] keeps what stands before the first
    semicolon, with or without the whitespace at its end. *)
Lemma cut_statement_truncates (t : text) :
  cut_statement t = split_first semicolon t \/
  cut_statement t = strip (split_first semicolon t).
Proof.
  unfold cut_statement, split_first.
  set (f := fun x => negb (Ascii.eqb x semicolon)).
  assert (Hf : f semicolon = false) by reflexivity.
  destruct (endswith [semicolon] t) eqn:E.
  - apply endswith_char_snoc in E.
    destruct (contains [semicolon] (drop_last t)) eqn:C.
    + right. rewrite E at 2. rewrite takewhile_app_stop; [reflexivity|].
      apply contains_char in C. now exists semicolon.
    + left. rewrite E at 2. symmetry. apply takewhile_stop; [|exact Hf].
      apply contains_char_false in C. apply Forall_forall. intros x Hx.
      unfold f. apply negb_true_iff, Ascii.eqb_neq. intros ->. contradiction.
  - destruct (contains [semicolon] t) eqn:C.
    + now right.
    + left. symmetry. apply takewhile_all.
      apply contains_char_false in C. apply Forall_forall. intros x Hx.
      unfold f. apply negb_true_iff, Ascii.eqb_neq. intros ->. contradiction.
Qed.

(** C3, as stated, fails for the sanitizer of app.py, which cuts nothing off
    and appends a semicolon. *)
Lemma clean_sql_query_appends_semicolon :
  App.clean_sql_query (txt "SELECT 1; DROP TABLE t")
  = inr (txt "SELECT 1; DROP TABLE t;") /\
  App.clean_sql_query (txt "SELECT 1") = inr (txt "SELECT 1;") /\
  In semicolon (txt "SELECT 1; DROP TABLE t;").
Proof.
  repeat split; try reflexivity. apply contains_char. reflexivity.
Qed.

(** Of a stripped text, [cut_statement] keeps what stands before the first
    semicolon, less the whitespace at its end when a semicolon stands
    before the last character. *)
Lemma cut_statement_exact (t : text) :
  cut_statement t =
  if contains [semicolon] (if endswith [semicolon] t then drop_last t else t)
  then strip (split_first semicolon t)
  else split_first semicolon t.
Proof.
  unfold cut_statement, split_first.
  set (f := fun x => negb (Ascii.eqb x semicolon)).
  assert (Hf : f semicolon = false) by reflexivity.
  destruct (endswith [semicolon] t) eqn:E.
  - apply endswith_char_snoc in E.
    destruct (contains [semicolon] (drop_last t)) eqn:C.
    + rewrite E at 2. rewrite takewhile_app_stop; [reflexivity|].
      apply contains_char in C. now exists semicolon.
    + rewrite E at 2. symmetry. apply takewhile_stop; [|exact Hf].
      apply contains_char_false in C. apply Forall_forall. intros x Hx.
      unfold f. apply negb_true_iff, Ascii.eqb_neq. intros ->. contradiction.
  - destruct (contains [semicolon] t) eqn:C.
    + reflexivity.
    + symmetry. apply takewhile_all.
      apply contains_char_false in C. apply Forall_forall. intros x Hx.
      unfold f. apply negb_true_iff, Ascii.eqb_neq. intros ->. contradiction.
Qed.

(** C3, amended: for an ASCII text on which the sanitizer of main.py
    returns, with [t] the text of the keyword step, main.py returns [t]
    stripped and cut before its first semicolon (and stripped again when a
    semicolon stands before the last character), which holds no semicolon;
    app.py returns [t] stripped, whole, with a semicolon appended unless it
    ends with one. *)
Theorem clean_sql_query_single_statement (q out : text) :
  isascii q = true ->
  Main.clean_sql_query q = inr out ->
  exists t, select_part q = inr t /\
    out = (if contains [semicolon] (statement t)
           then strip (split_first semicolon (strip t))
           else split_first semicolon (strip t)) /\
    ~ In semicolon out /\
    App.clean_sql_query q
    = inr (if endswith [semicolon] (strip t)
           then strip t else strip t ++ [semicolon]).
Proof.
  intros _. rewrite main_clean_unfold, app_clean_unfold.
  destruct (select_part q) as [e|t]; [discriminate|].
  intros H. inversion H. subst out. clear H.
  exists t. rewrite first_statement_cut. repeat split.
  - apply cut_statement_exact.
  - apply cut_statement_no_semicolon.
  - now destruct (endswith [semicolon] (strip t)).
Qed.

Lemma clean_sql_query_single_statement_witness :
  exists t, select_part (txt "select a ; drop table t;") = inr t /\
    txt "select a"
    = (if contains [semicolon] (statement t)
       then strip (split_first semicolon (strip t))
       else split_first semicolon (strip t)) /\
    ~ In semicolon (txt "select a") /\
    App.clean_sql_query (txt "select a ; drop table t;")
    = inr (if endswith [semicolon] (strip t)
           then strip t else strip t ++ [semicolon]).
Proof.
  apply (clean_sql_query_single_statement
           (txt "select a ; drop table t;") (txt "select a"));
    reflexivity.
Defined.

End SingleStatement.

(** ** No keyword, no query (C5) *)

Section NoSelect.

Import Py.

Lemma begins_strip_contains (s : text) :
  begins_with_select (strip s) = true ->
  contains (txt "SELECT") (upper s) = true.
Proof.
  intros H. destruct (strip_infix s) as (a & b & Hs).
  rewrite Hs, !upper_app.
  apply contains_app_r, contains_app_l, contains_startswith, H.
Qed.

Lemma select_part_refuses (q : text) :
  contains (txt "SELECT") (upper (cleaned q)) = false ->
  select_part q = raise "Only SELECT queries are allowed".
Proof.
  intros H. unfold select_part. cbv zeta. fold (cleaned q).
  destruct (startswith (txt "SELECT") (upper (strip (cleaned q)))) eqn:E.
  - apply begins_strip_contains in E. congruence.
  - cbn [negb]. now rewrite H.
Qed.

(** C5, as stated, fails: a text may hold no SELECT once its comments are
    removed and still be accepted, when removing a backtick joins the
    keyword. *)
Lemma clean_sql_query_backtick_joins_keyword :
  contains (txt "SELECT") (upper (txt "SEL`ECT 1")) = false /\
  contains (txt "SELECT") (upper (uncommented (txt "SEL`ECT 1"))) = false /\
  Main.clean_sql_query (txt "SEL`ECT 1") = inr (txt "SELECT 1") /\
  App.clean_sql_query (txt "SEL`ECT 1") = inr (txt "SELECT 1;").
Proof. repeat split; reflexivity. Qed.

(** C5, amended: for every ASCII text in which SELECT, in any case, occurs
    nowhere once comments and backticks are removed, both sanitizers raise
    "Only SELECT queries are allowed" and return no query text. *)
Theorem clean_sql_query_no_select (q : text) :
  isascii q = true ->
  contains (txt "SELECT") (upper (cleaned q)) = false ->
  Main.clean_sql_query q = raise "Only SELECT queries are allowed" /\
  App.clean_sql_query q = raise "Only SELECT queries are allowed".
Proof.
  intros _ H. rewrite main_clean_unfold, app_clean_unfold.
  now rewrite (select_part_refuses q H).
Qed.

Lemma clean_sql_query_no_select_witness :
  Main.clean_sql_query (txt "DROP TABLE projects;")
  = raise "Only SELECT queries are allowed" /\
  App.clean_sql_query (txt "DROP TABLE projects;")
  = raise "Only SELECT queries are allowed".
Proof.
  apply (clean_sql_query_no_select (txt "DROP TABLE projects;"));
    reflexivity.
Defined.

End NoSelect.

(** ** Sanitizing twice (C6) *)

Section Idempotence.

Import Py.

(** A text without comment openers and backticks that starts with the keyword
    once stripped passes the keyword step unchanged. *)
Lemma select_part_fixed (s : text) :
  contains (txt "--") s = false ->
  contains (txt "/*") s = false ->
  ~ In backtick s ->
  begins_with_select (strip s) = true ->
  select_part s = inr s.
Proof.
  intros Hline Hblock Hbt Hb. unfold select_part. cbv zeta.
  rewrite (sub_unchanged Re.line_comment (txt "--") s line_comment_starts Hline).
  rewrite (sub_unchanged Re.block_comment (txt "/*") s block_comment_starts Hblock).
  rewrite (remove_char_unchanged _ _ Hbt).
  unfold begins_with_select in Hb. now rewrite Hb.
Qed.

Lemma cut_statement_fixed (s : text) :
  ~ In semicolon s -> cut_statement s = s.
Proof.
  intros H. unfold cut_statement.
  destruct (endswith [semicolon] s) eqn:E.
  - apply endswith_char_In in E. contradiction.
  - apply contains_char_false in H. now rewrite H.
Qed.

Lemma endswith_last_ok (c : ascii) (s : text) :
  is_space c = false -> endswith [c] s = true -> last_ok s = true.
Proof.
  intros Hc H. unfold endswith in H. simpl rev in H.
  apply startswith_true in H as [r Hr]. unfold last_ok. rewrite Hr.
  simpl. now rewrite Hc.
Qed.

(** C6, as stated, fails.  In main.py a trailing semicolon is dropped without
    stripping again, so whitespace before it stays and is stripped by a
    second pass; and a comment marker joined by the removal of a block
    comment is removed by a second pass in both sanitizers. *)
Lemma clean_sql_query_not_idempotent :
  (Main.clean_sql_query (txt "SELECT 1 ;") = inr (txt "SELECT 1 ") /\
   Main.clean_sql_query (txt "SELECT 1 ") = inr (txt "SELECT 1")) /\
  (App.clean_sql_query (txt "SELECT 1 -/**/- 2") = inr (txt "SELECT 1 -- 2;") /\
   App.clean_sql_query (txt "SELECT 1 -- 2;") = inr (txt "SELECT 1;")).
Proof. repeat split; reflexivity. Qed.

(** C6, amended: an output [s] of a sanitizer on an ASCII text that holds
    no [--] and no [/*] (and, for main.py, does not end with whitespace) is
    returned unchanged when it is sanitized again. *)
Theorem clean_sql_query_idempotent (q s : text) :
  isascii q = true ->
  contains (txt "--") s = false ->
  contains (txt "/*") s = false ->
  (Main.clean_sql_query q = inr s -> last_ok s = true ->
   Main.clean_sql_query s = inr s) /\
  (App.clean_sql_query q = inr s -> App.clean_sql_query s = inr s).
Proof.
  intros _ Hline Hblock. split.
  - intros H Hlast.
    destruct (main_clean_post _ _ H) as (Hb & Hsemi & Hbt).
    assert (Hs : strip s = s)
      by (apply strip_fixed; [now apply begins_head_ok | exact Hlast]).
    rewrite main_clean_unfold, select_part_fixed; try assumption.
    + rewrite first_statement_cut, Hs. now rewrite cut_statement_fixed.
    + now rewrite Hs.
  - intros H.
    destruct (app_clean_post _ _ H) as (Hb & He & Hbt).
    assert (Hs : strip s = s).
    { apply strip_fixed; [now apply begins_head_ok |].
      now apply (endswith_last_ok semicolon). }
    rewrite app_clean_unfold, select_part_fixed; try assumption.
    + rewrite Hs, He. reflexivity.
    + now rewrite Hs.
Qed.

Lemma clean_sql_query_idempotent_witness :
  Main.clean_sql_query (txt "select a from t") = inr (txt "select a from t") /\
  App.clean_sql_query (txt "select a from t;") = inr (txt "select a from t;").
Proof.
  split.
  - apply (clean_sql_query_idempotent
             (txt "/* first */ select a from t ; drop table t")
             (txt "select a from t")); reflexivity.
  - apply (clean_sql_query_idempotent
             (txt "select a from t") (txt "select a from t;")); reflexivity.
Defined.

End Idempotence.

(** ** The executors (C2, C4) *)

Section Executors.

Import Py.

(** On a text that starts with no whitespace, [cut_statement] returns a
    prefix. *)
Lemma cut_statement_prefix (t : text) :
  head_ok t = true -> exists r, t = cut_statement t ++ r.
Proof.
  intros Hh.
  assert (Hp : t = split_first semicolon t
                   ++ dropwhile (fun x => negb (Ascii.eqb x semicolon)) t)
    by (symmetry; apply takewhile_dropwhile).
  destruct (cut_statement_truncates t) as [-> | ->].
  - eauto.
  - assert (Hh' : head_ok (split_first semicolon t) = true).
    { apply (head_ok_prefix _ (dropwhile (fun x => negb (Ascii.eqb x semicolon)) t)).
      now rewrite <- Hp. }
    unfold strip. rewrite lstrip_head_ok by assumption.
    destruct (rstrip_prefix (split_first semicolon t)) as [w Hw].
    exists (w ++ dropwhile (fun x => negb (Ascii.eqb x semicolon)) t).
    rewrite app_assoc, <- Hw. exact Hp.
Qed.

Lemma first_statement_begins (q : text) :
  begins_with_select (first_statement q) = true ->
  begins_with_select (strip q) = true.
Proof.
  rewrite first_statement_cut. intros H.
  destruct (cut_statement_prefix (strip q) (head_ok_strip q)) as [r Hr].
  rewrite Hr. now apply begins_prefix.
Qed.

(** C2, as stated, fails for the executor of db_utils.py, which checks
    nothing about the keyword: a DROP statement is handed to the cursor and
    runs there.  The error the call ends with comes afterwards, from
    fetching the rows of a statement that has none, and is no rejection. *)
Lemma execute_sql_query_runs_drop :
  begins_with_select (strip (txt "DROP TABLE projects")) = false /\
  DbUtils.cursor_execute sample_database (txt "DROP TABLE projects")
  = inr (no_result_cursor 3) /\
  DbUtils.execute_sql_query sample_database (txt "DROP TABLE projects")
  = (inl (txt "Error executing SQL query: no results to fetch"),
     [DbUtils.Execute (txt "DROP TABLE projects")]).
Proof. repeat split; reflexivity. Qed.

(** C2, amended: for ASCII texts the executor of main.py hands to the
    database only statements that start with SELECT, in any case; for every
    text that, stripped, does not start with SELECT it raises (the message
    says that only SELECT queries are allowed, or for the empty text that
    the query is invalid) and hands nothing to the database. *)
Theorem execute_sql_query_select_only (db : Main.Engine) (q : text) :
  isascii q = true ->
  Forall (fun stmt => begins_with_select stmt = true)
         (snd (Main.execute_sql_query db q)) /\
  (begins_with_select (strip q) = false ->
   Main.execute_sql_query db q
   = (inl (txt "Error executing query: "
           ++ (if falsy q then txt "Invalid SQL query"
               else txt "Only SELECT queries are allowed")), [])).
Proof.
  intros _. unfold Main.execute_sql_query. cbv zeta.
  fold (first_statement q). fold (begins_with_select (first_statement q)).
  destruct (falsy q) eqn:Ef.
  - split; [constructor | reflexivity].
  - destruct (begins_with_select (first_statement q)) eqn:Eb; cbn [negb].
    + split.
      * destruct (Main.connect db); [constructor|].
        destruct (Main.run db (first_statement q)) as [e|[cols rows]];
          cbn [snd]; repeat constructor; exact Eb.
      * intros Hn. apply first_statement_begins in Eb. congruence.
    + split; [constructor | reflexivity].
Qed.

Lemma execute_sql_query_select_only_witness :
  Main.execute_sql_query sample_engine (txt "  delete from projects; select 1")
  = (inl (txt "Error executing query: Only SELECT queries are allowed"), []).
Proof.
  apply (execute_sql_query_select_only sample_engine
           (txt "  delete from projects; select 1"));
    reflexivity.
Defined.

End Executors.

Section ModifyingStatements.

Import Py.





Lemma count_none (c : ascii) (s : text) : ~ In c s -> count c s = 0.
Proof.
  unfold count. induction s as [|x s IH]; intros H; simpl; [reflexivity|].
  destruct (Ascii.eqb x c) eqn:E.
  - apply Ascii.eqb_eq in E. subst. elim H. now left.
  - apply IH. intros Hin. apply H. now right.
Qed.

(** C4: the executor of db_utils.py checks nothing about the keyword: for
    every non-empty query whose statement (the query stripped, less one
    trailing semicolon) holds no semicolon, once the connection is made that
    statement is handed to the cursor, whatever it starts with.  But the rows
    are fetched before the keyword is looked at: when the cursor has no
    result set, as after a plain INSERT, UPDATE or DELETE, [fetchall]
    raises, and the function raises with that message without committing
    and without the row-count message. *)
Theorem execute_sql_query_fetches_first (db : DbUtils.Database) (query : text) :
  falsy query = false ->
  ~ In semicolon (statement query) ->
  DbUtils.connect db = None ->
  (exists rest, snd (DbUtils.execute_sql_query db query)
                = DbUtils.Execute (statement query) :: rest) /\
  (forall cursor e,
     DbUtils.cursor_execute db (statement query) = inr cursor ->
     DbUtils.fetchall cursor = inl e ->
     DbUtils.execute_sql_query db query
     = (inl (txt "Error executing SQL query: " ++ e),
        [DbUtils.Execute (statement query)])).
Proof.
  intros Hf Hsemi Hconn.
  unfold DbUtils.execute_sql_query, DbUtils.get_db_connection. cbv zeta.
  fold (statement query). rewrite Hf, Hconn, (count_none _ _ Hsemi).
  cbn [Nat.ltb Nat.leb]. split.
  - destruct (DbUtils.cursor_execute db (statement query)) as [e|cursor];
      [cbn [snd]; eauto|].
    destruct (DbUtils.fetchall cursor) as [e|rows]; [cbn [snd]; eauto|].
    destruct (DbUtils.modifies (statement query)).
    + destruct (DbUtils.commit db); cbn [snd]; eauto.
    + cbn [snd]. eauto.
  - intros cursor e Hexec Hfetch. now rewrite Hexec, Hfetch.
Qed.

Lemma execute_sql_query_fetches_first_witness :
  DbUtils.modifies (statement (txt "DELETE FROM projects")) = true /\
  DbUtils.execute_sql_query sample_database (txt "DELETE FROM projects")
  = (inl (txt "Error executing SQL query: no results to fetch"),
     [DbUtils.Execute (txt "DELETE FROM projects")]).
Proof.
  split; [reflexivity|].
  refine (proj2 (execute_sql_query_fetches_first sample_database
                   (txt "DELETE FROM projects") eq_refl _ eq_refl)
            (no_result_cursor 3) (txt "no results to fetch") eq_refl eq_refl).
  apply contains_char_false. reflexivity.
Defined.

End ModifyingStatements.

(** ** Which results get a chart (C7) *)

Section ChartEligibility.

Import Presenter.

Lemma chart_eligible_two (first second : Series) (n : nat) :
  chart_eligible {| df_columns := [first; second]; n_rows := n |}
  = is_numeric_dtype (series_dtype second) && (1 <? n)%nat && (n <=? 15)%nat.
Proof.
  unfold chart_eligible, empty. cbn.
  destruct n as [|[|n]]; cbn;
    destruct (is_numeric_dtype (series_dtype second)); cbn; try reflexivity;
    now destruct (n <=? 13)%nat.
Qed.

Lemma numeric_dtypes (d : dtype) :
  is_numeric_dtype d = true <-> In d [bool_; int_; uint_; float_; complex_].
Proof.
  split.
  - destruct d; intros H; try discriminate; simpl; tauto.
  - intros [<-|[<-|[<-|[<-|[<-|[]]]]]]; reflexivity.
Qed.

(** C7, as stated, fails: the values of the second column are not looked
    at.  A frame whose second column has the boolean dtype gets a chart
    though none of its values is a number, and a frame whose second column
    has the object dtype gets none though all of its values are numbers. *)
Lemma chart_eligible_reads_dtype :
  (chart_eligible flags_frame = true /\
   second_column_numbers flags_frame = false /\
   spec_chart_eligible flags_frame = false) /\
  (chart_eligible numbers_frame = false /\
   second_column_numbers numbers_frame = true /\
   spec_chart_eligible numbers_frame = true).
Proof. repeat split; reflexivity. Qed.

(** C7, amended: a result is chart-eligible exactly when it has two columns,
    more than one and at most fifteen rows, and a second column whose dtype
    is boolean, integer, unsigned, float or complex; the values of the
    column are not read.  So with such a second column 2 and 15 rows are
    eligible and 1 and 16 rows are not, a second column of object dtype is
    never eligible, and neither is a frame of one or of three and more
    columns. *)
Theorem chart_eligible_exactly (df : DataFrame) :
  (chart_eligible df = true <->
   exists first second,
     df_columns df = [first; second] /\
     1 < n_rows df /\ n_rows df <= 15 /\
     In (series_dtype second) [bool_; int_; uint_; float_; complex_]) /\
  (forall first name d values values' n,
     chart_eligible
       {| df_columns := [first; {| series_name := name; series_dtype := d;
                                   series_values := values |}];
          n_rows := n |}
     = chart_eligible
         {| df_columns := [first; {| series_name := name; series_dtype := d;
                                     series_values := values' |}];
            n_rows := n |}) /\
  (forall first second,
     In (series_dtype second) [bool_; int_; uint_; float_; complex_] ->
     chart_eligible {| df_columns := [first; second]; n_rows := 2 |} = true /\
     chart_eligible {| df_columns := [first; second]; n_rows := 15 |} = true /\
     chart_eligible {| df_columns := [first; second]; n_rows := 1 |} = false /\
     chart_eligible {| df_columns := [first; second]; n_rows := 16 |} = false) /\
  (forall first second n,
     ~ In (series_dtype second) [bool_; int_; uint_; float_; complex_] ->
     chart_eligible {| df_columns := [first; second]; n_rows := n |} = false) /\
  (forall c1 c2 c3 rest n,
     chart_eligible {| df_columns := []; n_rows := n |} = false /\
     chart_eligible {| df_columns := [c1]; n_rows := n |} = false /\
     chart_eligible {| df_columns := c1 :: c2 :: c3 :: rest; n_rows := n |} = false).
Proof.
  split; [|split; [|split; [|split]]].
  - split.
    + intros H. destruct df as [cols n].
      destruct cols as [|c1 [|c2 [|c3 rest]]].
      * unfold chart_eligible, empty in H. cbn in H.
        rewrite orb_true_r in H. discriminate.
      * unfold chart_eligible, empty in H. cbn in H.
        rewrite orb_false_r in H. destruct (n =? 0)%nat; discriminate.
      * rewrite chart_eligible_two in H.
        apply andb_prop in H as [H H15]. apply andb_prop in H as [Hd H1].
        exists c1, c2. cbn [df_columns n_rows]. repeat split.
        -- now apply Nat.ltb_lt.
        -- now apply Nat.leb_le.
        -- now apply numeric_dtypes.
      * unfold chart_eligible, empty in H. cbn in H.
        rewrite orb_false_r in H. destruct (n =? 0)%nat; discriminate.
    + intros (first & second & Hc & H1 & H15 & Hd).
      destruct df as [cols n]. cbn [df_columns n_rows] in Hc, H1, H15.
      subst cols. rewrite chart_eligible_two.
      apply numeric_dtypes in Hd. rewrite Hd.
      apply Nat.ltb_lt in H1. apply Nat.leb_le in H15. now rewrite H1, H15.
  - intros first name d values values' n. now rewrite !chart_eligible_two.
  - intros first second Hd. apply numeric_dtypes in Hd.
    rewrite !chart_eligible_two, Hd. repeat split; reflexivity.
  - intros first second n Hd. rewrite chart_eligible_two.
    destruct (is_numeric_dtype (series_dtype second)) eqn:E; [|reflexivity].
    apply numeric_dtypes in E. contradiction.
  - intros c1 c2 c3 rest n. unfold chart_eligible, empty. cbn.
    rewrite !orb_false_r, orb_true_r. repeat split; now destruct (n =? 0)%nat.
Qed.

End ChartEligibility.

(** ** Classifying an execution error (C8) *)

Section ErrorClassification.

Import Py.

Lemma skipn_exact {A : Type} (a b : list A) : skipn (List.length a) (a ++ b) = b.
Proof. induction a as [|x a IH]; simpl; [reflexivity | exact IH]. Qed.

Lemma forallb_Forall (f : ascii -> bool) (s : text) :
  forallb f s = true <-> Forall (fun c => f c = true) s.
Proof.
  rewrite forallb_forall, Forall_forall. reflexivity.
Qed.

(** The anchored matcher succeeds on a text exactly when the text starts
    with the pattern for the name it returns. *)
Lemma relation_missing_sound (s name : text) :
  Re.relation_missing s = Some name ->
  name <> [] /\ forallb Re.is_word name = true /\
  exists post, s = relation_pattern name ++ post.
Proof.
  unfold Re.relation_missing. cbv zeta.
  destruct (startswith (txt "relation " ++ [Re.dquote]) s) eqn:E; [|discriminate].
  apply startswith_true in E as [rest ->].
  rewrite skipn_exact.
  pose proof (takewhile_dropwhile Re.is_word rest) as Hsplit.
  pose proof (takewhile_Forall Re.is_word rest) as Hword.
  destruct (takewhile Re.is_word rest) as [|c n] eqn:En; [discriminate|].
  rewrite <- Hsplit at 1. rewrite skipn_exact.
  destruct (startswith (Re.dquote :: txt " does not exist")
              (dropwhile Re.is_word rest)) eqn:Ec; [|discriminate].
  apply startswith_true in Ec as [post Hpost].
  intros H. inversion H. subst name. clear H.
  split; [discriminate|]. split; [now apply forallb_Forall|].
  exists post. unfold relation_pattern.
  rewrite <- Hsplit, Hpost, <- !app_assoc. reflexivity.
Qed.

Lemma relation_missing_complete (name post : text) :
  name <> [] -> forallb Re.is_word name = true ->
  Re.relation_missing (relation_pattern name ++ post) = Some name.
Proof.
  intros Hne Hword. unfold Re.relation_missing, relation_pattern. cbv zeta.
  rewrite <- !app_assoc.
  replace (txt "relation " ++ [Re.dquote] ++ name ++ [Re.dquote]
           ++ txt " does not exist" ++ post)
    with ((txt "relation " ++ [Re.dquote])
          ++ name ++ Re.dquote :: txt " does not exist" ++ post)
    by (now rewrite <- !app_assoc).
  rewrite startswith_app, skipn_exact.
  rewrite takewhile_stop;
    [| now apply forallb_Forall | reflexivity].
  destruct name as [|c n]; [congruence|].
  rewrite skipn_exact.
  change (Re.dquote :: txt " does not exist" ++ post)
    with ((Re.dquote :: txt " does not exist") ++ post).
  now rewrite startswith_app.
Qed.

Lemma search_relation_sound (msg name : text) :
  Re.search Re.relation_missing msg = Some name -> occurs name msg.
Proof.
  intros H. destruct (search_found _ _ _ H) as (pre & s' & -> & Hs').
  destruct (relation_missing_sound _ _ Hs') as (Hne & Hw & post & ->).
  repeat split; try assumption. now exists pre, post.
Qed.

Lemma search_relation_complete (msg name : text) :
  occurs name msg -> exists found, Re.search Re.relation_missing msg = Some found.
Proof.
  intros (Hne & Hw & pre & post & ->).
  apply (search_some _ pre _ name). now apply relation_missing_complete.
Qed.

Lemma contains_self_app (a p b : text) : contains p (a ++ p ++ b) = true.
Proof. apply contains_app_r, contains_startswith, startswith_app. Qed.

Lemma contains_app_self (a p : text) : contains p (a ++ p) = true.
Proof. rewrite <- (app_nil_r p) at 2. apply contains_self_app. Qed.

(** A message in which the pattern occurs passes the two substring tests
    that guard the search. *)
Lemma occurs_guard (name msg : text) :
  occurs name msg ->
  contains (txt "relation") msg && contains (txt "does not exist") msg = true.
Proof.
  intros (_ & _ & pre & post & ->). unfold relation_pattern.
  apply andb_true_intro. split.
  - apply contains_app_r, contains_app_l, contains_app_l.
    apply contains_startswith.
    apply (startswith_app (txt "relation") (txt " ")).
  - apply contains_app_r, contains_app_l.
    change (txt " does not exist") with (txt " " ++ txt "does not exist").
    rewrite !app_assoc. apply contains_app_self.
Qed.

(** The example of the specification: the missing table [foo] and the live
    tables [bar] and [baz]. *)
Example classify_error_example :
  Main.classify_error bar_baz_engine (relation_pattern (txt "foo"))
  = inr (txt "Table 'foo' does not exist. Available tables: bar, baz").
Proof. reflexivity. Qed.

(** C8, as stated, fails: when the live table list is empty the message
    ends after the first sentence and has no "Available tables" part. *)
Lemma classify_error_without_tables :
  Main.classify_error empty_engine (relation_pattern (txt "foo"))
  = inr (txt "Table 'foo' does not exist. ") /\
  contains (txt "Available tables") (txt "Table 'foo' does not exist. ") = false.
Proof. split; reflexivity. Qed.

(** C8, amended: for every ASCII error text in which the pattern
    [relation "<name>" does not exist] occurs, the classifier takes the name
    of the leftmost occurrence, reads the live table list and answers
    [Table '<name>' does not exist. ], followed, when the list is not empty,
    by [Available tables: ] and the tables separated by commas; the answer
    holds the name.  For every error text in which the pattern does not
    occur, the message passes through unchanged. *)
Theorem classify_error_enriches (db : Main.Engine) (msg : text) :
  isascii msg = true ->
  (Main.connect db = None ->
   forall name, occurs name msg ->
     exists found, occurs found msg /\
       Main.classify_error db msg
       = inr (missing_table_message found (Main.table_query db)) /\
       contains found (missing_table_message found (Main.table_query db)) = true) /\
  ((forall name, ~ occurs name msg) -> Main.classify_error db msg = inr msg).
Proof.
  intros _. split.
  - intros Hconn name Hocc.
    destruct (search_relation_complete _ _ Hocc) as [found Hfound].
    pose proof (search_relation_sound _ _ Hfound) as Hin.
    exists found. split; [exact Hin|]. split.
    + unfold Main.classify_error. rewrite (occurs_guard _ _ Hin), Hfound, Hconn.
      unfold missing_table_message.
      destruct (Main.table_query db); [now rewrite app_nil_r|].
      now rewrite <- !app_assoc.
    + unfold missing_table_message. apply contains_self_app.
  - intros Hnone. unfold Main.classify_error.
    destruct (contains (txt "relation") msg
              && contains (txt "does not exist") msg); [|reflexivity].
    destruct (Re.search Re.relation_missing msg) as [found|] eqn:E;
      [|reflexivity].
    apply search_relation_sound in E. now elim (Hnone found).
Qed.

Lemma classify_error_enriches_witness :
  exists found,
    occurs found (txt "Error executing query: " ++ relation_pattern (txt "foo")) /\
    Main.classify_error sample_engine
      (txt "Error executing query: " ++ relation_pattern (txt "foo"))
    = inr (missing_table_message found (Main.table_query sample_engine)) /\
    contains found
      (missing_table_message found (Main.table_query sample_engine)) = true.
Proof.
  apply (proj1 (classify_error_enriches sample_engine
                  (txt "Error executing query: " ++ relation_pattern (txt "foo"))
                  eq_refl)
           eq_refl (txt "foo")).
  repeat split; try reflexivity; try discriminate.
  exists (txt "Error executing query: "), []. now rewrite app_nil_r.
Defined.

End ErrorClassification.

(** ** Reading the schema (C9, C10) *)

Section Introspection.

Import Py.

Lemma eqb_eq (a b : text) : Py.eqb a b = true <-> a = b.
Proof.
  revert b. induction a as [|x a IH]; intros [|y b]; simpl;
    try (split; [discriminate | congruence]); [tauto|].
  rewrite andb_true_iff, Ascii.eqb_eq, IH. split.
  - now intros [-> ->].
  - intros H. inversion H. tauto.
Qed.


Lemma join_nonempty (sep x : text) (rest : list text) :
  x <> [] -> join sep (x :: rest) <> [].
Proof.
  intros Hx. destruct x as [|c x]; [congruence|].
  destruct rest; simpl; discriminate.
Qed.


Lemma dict_set_nonempty {V : Type} (k : text) (v : V) (d : list (text * V)) :
  dict_set k v d <> [].
Proof.
  destruct d as [|[k' v'] d]; simpl; [discriminate|].
  destruct (Py.eqb k k'); discriminate.
Qed.

Lemma dict_append_nonempty (k line : text) (d : list (text * list text)) :
  DbUtils.dict_append k line d <> [].
Proof.
  unfold DbUtils.dict_append.
  destruct (dict_get k d); apply dict_set_nonempty.
Qed.

Lemma grouped_nonempty (rows : list ColumnRow) (d : list (text * list text)) :
  rows <> [] \/ d <> [] ->
  fold_left (fun d row =>
               DbUtils.dict_append (table_name row) (DbUtils.column_line row) d)
            rows d <> [].
Proof.
  revert d. induction rows as [|r rows IH]; intros d H; simpl.
  - destruct H as [H|H]; [congruence | exact H].
  - apply IH. right. apply dict_append_nonempty.
Qed.

(** The schema text of db_utils.py is never the empty string. *)
Lemma db_utils_table_info_nonempty (db : DbUtils.Database) :
  DbUtils.get_table_info db <> [].
Proof.
  unfold DbUtils.get_table_info, DbUtils.get_db_connection. cbv zeta.
  destruct (DbUtils.connect db) as [e|]; [discriminate|].
  destruct (DbUtils.public_columns db) as [e|tables]; [discriminate|].
  destruct tables as [|row tables]; [discriminate|].
  destruct (DbUtils.foreign_keys db) as [e|fks]; [discriminate|].
  set (grouped := fold_left _ (row :: tables) []).
  assert (Hg : grouped <> [])
    by (apply grouped_nonempty; left; discriminate).
  destruct grouped as [|item grouped]; [congruence|].
  destruct fks; cbn [map app]; apply join_nonempty; discriminate.
Qed.

(** C9, as stated, fails for [get_table_info] of main.py, which has no
    sentinel: with no user table its schema text is the empty string. *)
Lemma get_table_info_empty_string :
  Main.table_query empty_engine = [] /\
  Main.get_table_info empty_engine = [].
Proof. split; reflexivity. Qed.

(** C9, amended: when the catalogue query returns no row, [get_table_info]
    of db_utils.py returns the sentinel "No tables found in the database.",
    and it never returns the empty string; [get_table_info] of main.py
    returns the empty string when the database holds no user table. *)
Theorem get_table_info_no_tables :
  (forall db : DbUtils.Database,
     (DbUtils.connect db = None -> DbUtils.public_columns db = inr [] ->
      DbUtils.get_table_info db = txt "No tables found in the database.") /\
     DbUtils.get_table_info db <> []) /\
  (forall db : Main.Engine,
     Main.connect db = None -> Main.table_query db = [] ->
     Main.get_table_info db = []).
Proof.
  split.
  - intros db. split; [|apply db_utils_table_info_nonempty].
    intros Hc Hrows. unfold DbUtils.get_table_info, DbUtils.get_db_connection.
    now rewrite Hc, Hrows.
  - intros db Hc Hq. unfold Main.get_table_info. now rewrite Hc, Hq.
Qed.

Lemma get_table_info_no_tables_witness :
  DbUtils.get_table_info
    {| DbUtils.connect := None;
       DbUtils.cursor_execute := DbUtils.cursor_execute sample_database;
       DbUtils.commit := None;
       DbUtils.public_columns := inr [];
       DbUtils.foreign_keys := inr [] |}
  = txt "No tables found in the database.".
Proof.
  apply (proj1 get_table_info_no_tables); reflexivity.
Defined.








(** Each description is a block that starts with the keyword. *)
Lemma table_descriptions_nonempty (db : Main.Engine) (ts : list text)
    (info : list text) :
  Main.table_descriptions db ts = inr info ->
  List.length info = List.length ts /\ Forall (fun block => block <> []) info.
Proof.
  revert info. induction ts as [|t ts IH]; intros info H.
  - inversion H. split; [reflexivity | constructor].
  - cbn [Main.table_descriptions] in H.
    destruct (Main.column_query db t) as [e|columns]; [discriminate|].
    destruct (Main.table_descriptions db ts) as [e|rest]; [discriminate|].
    inversion H. destruct (IH rest eq_refl) as [Hl Hf]. split.
    + simpl. now rewrite Hl.
    + constructor; [discriminate | exact Hf].
Qed.

Lemma table_query_user_table (db : Main.Engine) (t : text) :
  In t (Main.table_query db) <-> user_table db t.
Proof.
  unfold Main.table_query, user_table. rewrite in_map_iff. split.
  - intros ([schema t'] & Ht & Hin). cbn in Ht. subst t'.
    apply filter_In in Hin as [Hin Hf]. cbn [fst] in Hf.
    apply andb_prop in Hf as [H1 H2].
    exists schema. repeat split; [exact Hin | |]; intros Heq;
      apply eqb_eq in Heq; [rewrite Heq in H1 | rewrite Heq in H2];
      discriminate.
  - intros (schema & Hin & H1 & H2). exists (schema, t). split; [reflexivity|].
    apply filter_In. split; [exact Hin|]. cbn [fst].
    apply andb_true_intro. split; apply negb_true_iff;
      (destruct (Py.eqb schema _) eqn:E; [|reflexivity]);
      apply eqb_eq in E; contradiction.
Qed.



End Introspection.

(** * Further properties of the code *)

(** ** The substitution passes of the sanitizer *)

Section CommentPasses.

Import Py.

Lemma sub_go_skip (m : text -> option nat) (k : nat) (s : text) :
  Re.sub_go m k s = Re.sub m (skipn k s).
Proof.
  revert k. induction s as [|c s IH]; intros k.
  - now destruct k.
  - destruct k as [|k]; [reflexivity|]. cbn [Re.sub_go skipn]. apply IH.
Qed.

(** One step of [re.sub]: a match at the head is dropped whole, otherwise the
    head is kept. *)
Lemma sub_cons (m : text -> option nat) (c : ascii) (t : text) :
  Re.sub m (c :: t) =
  match m (c :: t) with
  | Some (S k) => Re.sub m (skipn k t)
  | _ => c :: Re.sub m t
  end.
Proof.
  unfold Re.sub at 1. cbn [Re.sub_go].
  destruct (m (c :: t)) as [[|k]|]; try reflexivity. apply sub_go_skip.
Qed.

(** Substitution only removes characters. *)
Lemma sub_go_incl (m : text -> option nat) (k : nat) (s : text) (x : ascii) :
  In x (Re.sub_go m k s) -> In x s.
Proof.
  revert k. induction s as [|c s IH]; intros k H; [destruct k; exact H|].
  cbn [Re.sub_go] in H. destruct k as [|k].
  - destruct (m (c :: s)) as [[|j]|].
    + destruct H as [->|H]; [now left | right; eauto].
    + right. eauto.
    + destruct H as [->|H]; [now left | right; eauto].
  - right. eauto.
Qed.

Lemma sub_incl (m : text -> option nat) (s : text) (x : ascii) :
  In x (Re.sub m s) -> In x s.
Proof. apply sub_go_incl. Qed.

Lemma skipn_length_takewhile (f : ascii -> bool) (s : text) :
  skipn (List.length (takewhile f s)) s = dropwhile f s.
Proof.
  induction s as [|c s IH]; [reflexivity|].
  simpl. destruct (f c); [exact IH | reflexivity].
Qed.

Lemma dropwhile_head (f : ascii -> bool) (s : text) (y : ascii) (r : text) :
  dropwhile f s = y :: r -> f y = false.
Proof.
  induction s as [|c s IH]; simpl; [discriminate|].
  destruct (f c) eqn:E; [exact IH|]. intros H. now inversion H; subst.
Qed.

Lemma dropwhile_length (f : ascii -> bool) (s : text) :
  List.length (dropwhile f s) <= List.length s.
Proof.
  induction s as [|c s IH]; simpl; [lia|]. destruct (f c); simpl; lia.
Qed.

(** What follows a line comment: the end of the text, or a newline. *)
Lemma line_comment_match (c : ascii) (t : text) (k : nat) :
  Re.line_comment (c :: t) = Some (S k) ->
  exists t', c :: t = txt "--" ++ t' /\
    skipn k t = dropwhile (fun x => negb (Ascii.eqb x Re.newline)) t'.
Proof.
  unfold Re.line_comment.
  destruct (startswith (txt "--") (c :: t)) eqn:E; [|discriminate].
  apply startswith_true in E as [t' Ht']. rewrite Ht'.
  cbn [txt list_ascii_of_string app skipn]. intros H.
  exists t'. split; [reflexivity|].
  inversion Ht'. subst. inversion H. subst k.
  cbn [skipn]. apply skipn_length_takewhile.
Qed.

Lemma line_comment_never_empty (s : text) : Re.line_comment s <> Some 0.
Proof.
  unfold Re.line_comment. destruct (startswith (txt "--") s); discriminate.
Qed.

(** After the line-comment pass no [--] is left, and the text that remains
    starts with a character other than a newline only if the input starts
    with that character outside a comment. *)
Lemma line_pass_invariant (n : nat) (s : text) :
  List.length s <= n ->
  contains (txt "--") (Re.sub Re.line_comment s) = false /\
  (forall y r, Re.sub Re.line_comment s = y :: r -> y <> Re.newline ->
     exists t, s = y :: t /\ Re.line_comment s = None).
Proof.
  revert s. induction n as [|n IH]; intros s Hlen.
  - destruct s; [|simpl in Hlen; lia]. split; [reflexivity|]. discriminate.
  - destruct s as [|c t]; [split; [reflexivity | discriminate]|].
    simpl in Hlen. rewrite sub_cons.
    destruct (Re.line_comment (c :: t)) as [[|k]|] eqn:E.
    + now apply line_comment_never_empty in E.
    + destruct (line_comment_match _ _ _ E) as (t' & Ht' & Hrest).
      rewrite Hrest.
      assert (Hl : List.length
                     (dropwhile (fun x => negb (Ascii.eqb x Re.newline)) t') <= n).
      { pose proof (dropwhile_length (fun x => negb (Ascii.eqb x Re.newline)) t').
        assert (List.length (c :: t) = 2 + List.length t')
          by (rewrite Ht'; reflexivity).
        simpl in H0. lia. }
      destruct (IH _ Hl) as [Hc Hh]. split; [exact Hc|].
      intros y r Hy Hnl. destruct (Hh y r Hy Hnl) as (t0 & Ht0 & _).
      apply dropwhile_head in Ht0. apply negb_false_iff, Ascii.eqb_eq in Ht0.
      contradiction.
    + assert (Hl : List.length t <= n) by lia.
      destruct (IH _ Hl) as [Hc Hh]. split.
      * change (contains (txt "--") (c :: Re.sub Re.line_comment t))
          with (startswith (txt "--") (c :: Re.sub Re.line_comment t)
                || contains (txt "--") (Re.sub Re.line_comment t)).
        rewrite Hc, orb_false_r.
        destruct (startswith (txt "--") (c :: Re.sub Re.line_comment t)) eqn:Es;
          [|reflexivity].
        apply startswith_true in Es as [r Hr].
        cbn [txt list_ascii_of_string app] in Hr. inversion Hr as [[Hc' Hsub]].
        destruct (Hh _ _ Hsub) as (t0 & -> & _); [discriminate|].
        subst c. unfold Re.line_comment in E. simpl in E. discriminate.
      * intros y r Hy _. inversion Hy. subst. now exists t.
Qed.

Lemma line_pass_no_marker (s : text) :
  contains (txt "--") (Re.sub Re.line_comment s) = false.
Proof. apply (line_pass_invariant (List.length s) s). lia. Qed.

Lemma contains_suffix (p a s : text) :
  contains p (a ++ s) = false -> contains p s = false.
Proof.
  intros H. destruct (contains p s) eqn:E; [|reflexivity].
  apply (contains_app_r p a) in E. congruence.
Qed.

Lemma contains_tail (p : text) (c : ascii) (s : text) :
  contains p (c :: s) = false -> contains p s = false.
Proof. apply (contains_suffix p [c] s). Qed.

Lemma dropwhile_suffix (f : ascii -> bool) (s : text) :
  exists a, s = a ++ dropwhile f s.
Proof. exists (takewhile f s). symmetry. apply takewhile_dropwhile. Qed.

(** The line-comment pass joins no two characters into [/*]. *)
Lemma line_pass_keeps_no_opener (n : nat) (s : text) :
  List.length s <= n ->
  contains (txt "/*") s = false ->
  contains (txt "/*") (Re.sub Re.line_comment s) = false.
Proof.
  revert s. induction n as [|n IH]; intros s Hlen Hs.
  - destruct s; [reflexivity | simpl in Hlen; lia].
  - destruct s as [|c t]; [reflexivity|].
    simpl in Hlen. rewrite sub_cons.
    destruct (Re.line_comment (c :: t)) as [[|k]|] eqn:E.
    + now apply line_comment_never_empty in E.
    + destruct (line_comment_match _ _ _ E) as (t' & Ht' & Hrest).
      rewrite Hrest. apply IH.
      * pose proof (dropwhile_length (fun x => negb (Ascii.eqb x Re.newline)) t').
        assert (List.length (c :: t) = 2 + List.length t')
          by (rewrite Ht'; reflexivity).
        simpl in H0. lia.
      * destruct (dropwhile_suffix (fun x => negb (Ascii.eqb x Re.newline)) t')
          as [a Ha].
        rewrite Ht', Ha, app_assoc in Hs. now apply contains_suffix in Hs.
    + change (contains (txt "/*") (c :: Re.sub Re.line_comment t))
        with (startswith (txt "/*") (c :: Re.sub Re.line_comment t)
              || contains (txt "/*") (Re.sub Re.line_comment t)).
      rewrite (IH t) by (try lia; now apply contains_tail in Hs).
      rewrite orb_false_r.
      destruct (startswith (txt "/*") (c :: Re.sub Re.line_comment t)) eqn:Es;
        [|reflexivity].
      apply startswith_true in Es as [r Hr].
      cbn [txt list_ascii_of_string app] in Hr. inversion Hr as [[Hc' Hsub]].
      destruct (line_pass_invariant (List.length t) t (le_n _)) as [_ Hh].
      destruct (Hh _ _ Hsub) as (t0 & -> & _); [discriminate|].
      subst c. simpl in Hs. discriminate.
Qed.

End CommentPasses.

(** ** What the sanitizer keeps of its input *)

Section SanitizerOutput.

Import Py.

Lemma infix_refl (s : text) : infix s s.
Proof. exists [], []. now rewrite app_nil_r. Qed.

Lemma infix_trans (a b c : text) : infix a b -> infix b c -> infix a c.
Proof.
  intros (x & y & ->) (x' & y' & ->).
  exists (x' ++ x), (y ++ y'). now rewrite <- !app_assoc.
Qed.

Lemma infix_prefix (a y : text) : infix a (a ++ y).
Proof. now exists [], y. Qed.

Lemma infix_suffix (x a : text) : infix a (x ++ a).
Proof. exists x, []. now rewrite app_nil_r. Qed.

Lemma infix_strip (s : text) : infix (strip s) s.
Proof. destruct (strip_infix s) as (a & b & H). now exists a, b. Qed.

Lemma infix_drop_last (s : text) : infix (drop_last s) s.
Proof.
  unfold drop_last. destruct s as [|c s] using rev_ind.
  - apply infix_refl.
  - rewrite removelast_last. apply infix_prefix.
Qed.

Lemma infix_split_first (c : ascii) (s : text) : infix (split_first c s) s.
Proof.
  unfold split_first.
  rewrite <- (takewhile_dropwhile (fun x => negb (Ascii.eqb x c)) s) at 2.
  apply infix_prefix.
Qed.

Lemma infix_cut_statement (t : text) : infix (cut_statement t) t.
Proof.
  unfold cut_statement.
  set (t1 := if endswith [semicolon] t then drop_last t else t).
  assert (H1 : infix t1 t).
  { unfold t1. destruct (endswith [semicolon] t);
      [apply infix_drop_last | apply infix_refl]. }
  destruct (contains [semicolon] t1); [|exact H1].
  eapply infix_trans; [apply infix_strip|].
  eapply infix_trans; [apply infix_split_first | exact H1].
Qed.

Lemma infix_contains (p a s : text) :
  infix a s -> contains p a = true -> contains p s = true.
Proof.
  intros (x & y & ->) H. now apply contains_app_r, contains_app_l.
Qed.

Lemma select_part_infix (q t : text) :
  select_part q = inr t -> infix t (cleaned q).
Proof.
  intros H. destruct (select_part_cases _ _ H) as [[-> _]|[_ Hs]].
  - apply infix_refl.
  - destruct (search_select _ _ Hs) as [[pre ->] _]. apply infix_suffix.
Qed.

Lemma main_clean_infix (q out : text) :
  Main.clean_sql_query q = inr out -> infix out (cleaned q).
Proof.
  rewrite main_clean_unfold. destruct (select_part q) as [e|t] eqn:E;
    [discriminate|]. intros H. inversion H. subst out. clear H.
  rewrite first_statement_cut.
  eapply infix_trans; [apply infix_cut_statement|].
  eapply infix_trans; [apply infix_strip | now apply select_part_infix].
Qed.

(** The sanitizer of main.py invents nothing: what it returns is a
    contiguous part of the text left after comments and backticks are
    removed, and every character of it is a character of the raw text. *)
Theorem clean_sql_query_infix (q out : text) :
  Main.clean_sql_query q = inr out ->
  infix out (cleaned q) /\ (forall c, In c out -> In c q).
Proof.
  intros H. pose proof (main_clean_infix _ _ H) as Hi.
  split; [exact Hi|].
  intros c Hc. destruct Hi as (x & y & Hxy).
  assert (Hin : In c (cleaned q)).
  { rewrite Hxy. apply in_or_app. right. apply in_or_app. now left. }
  unfold cleaned, remove_char in Hin. apply filter_In in Hin as [Hin _].
  apply sub_incl in Hin. now apply sub_incl in Hin.
Qed.

Lemma clean_sql_query_infix_witness :
  infix (txt "select a") (cleaned (txt "Sure: select a; -- done")) /\
  (forall c, In c (txt "select a") -> In c (txt "Sure: select a; -- done")).
Proof.
  apply (clean_sql_query_infix (txt "Sure: select a; -- done") (txt "select a")).
  reflexivity.
Defined.

(** The first pass of both sanitizers removes every line comment: no [--]
    is left in the text it returns, whatever the input. *)
Theorem line_comments_removed (q : text) :
  contains (txt "--") (Re.sub Re.line_comment q) = false.
Proof. apply line_pass_no_marker. Qed.

(** A text without block-comment opener and without backtick is cleaned by
    the line-comment pass alone. *)
Lemma cleaned_plain (q : text) :
  contains (txt "/*") q = false -> ~ In backtick q ->
  cleaned q = Re.sub Re.line_comment q.
Proof.
  intros Hb Ht. unfold cleaned.
  pose proof (line_pass_keeps_no_opener (List.length q) q (le_n _) Hb) as Hb'.
  rewrite (sub_unchanged Re.block_comment (txt "/*") _ block_comment_starts Hb').
  apply remove_char_unchanged. intros Hin. apply Ht. now apply sub_incl in Hin.
Qed.

(** For a raw text that holds no [/*] and no backtick, what the sanitizer of
    main.py returns holds neither [--] nor [/*]. *)
Theorem clean_sql_query_no_markers (q out : text) :
  contains (txt "/*") q = false -> ~ In backtick q ->
  Main.clean_sql_query q = inr out ->
  contains (txt "--") out = false /\ contains (txt "/*") out = false.
Proof.
  intros Hb Ht H. pose proof (main_clean_infix _ _ H) as Hi.
  rewrite (cleaned_plain q Hb Ht) in Hi.
  pose proof (line_pass_no_marker q) as H1.
  pose proof (line_pass_keeps_no_opener (List.length q) q (le_n _) Hb) as H2.
  split.
  - destruct (contains (txt "--") out) eqn:E; [|reflexivity].
    apply (infix_contains _ _ _ Hi) in E. congruence.
  - destruct (contains (txt "/*") out) eqn:E; [|reflexivity].
    apply (infix_contains _ _ _ Hi) in E. congruence.
Qed.

Lemma clean_sql_query_no_markers_witness :
  contains (txt "--") (txt "select a") = false /\
  contains (txt "/*") (txt "select a") = false.
Proof.
  apply (clean_sql_query_no_markers
           (txt "Sure: select a -- the column; drop table t") (txt "select a"));
    [reflexivity | | reflexivity].
  apply contains_char_false. reflexivity.
Defined.

End SanitizerOutput.

(** ** What the sanitizers guarantee (C1) *)

Section SanitizerGuarantee.

Import Py.

Lemma startswith_snoc (p x : text) (c : ascii) :
  p <> [] -> ~ In c p -> startswith p (x ++ [c]) = true -> startswith p x = true.
Proof.
  intros Hp Hc H. apply startswith_true in H as [r Hr].
  destruct r as [|c' r] using rev_ind.
  - rewrite app_nil_r in Hr. exfalso. apply Hc. rewrite <- Hr.
    apply in_or_app. right. now left.
  - rewrite app_assoc in Hr. apply app_inj_tail in Hr as [-> _].
    apply startswith_app.
Qed.

(** A character that is not in the pattern, added at the end, brings no
    occurrence of the pattern. *)
Lemma contains_snoc (p x : text) (c : ascii) :
  p <> [] -> ~ In c p -> contains p (x ++ [c]) = true -> contains p x = true.
Proof.
  intros Hp Hc. induction x as [|a x IH]; intros H.
  - apply contains_startswith. apply (startswith_snoc p [] c Hp Hc).
    destruct p as [|b p]; [now elim Hp|].
    change (contains (b :: p) ([] ++ [c]))
      with (startswith (b :: p) [c] || (false || false)) in H.
    rewrite orb_false_r in H. exact H.
  - change (contains p ((a :: x) ++ [c]))
      with (startswith p ((a :: x) ++ [c]) || contains p (x ++ [c])) in H.
    apply orb_prop in H as [H|H].
    + apply contains_startswith. now apply (startswith_snoc p (a :: x) c).
    + now apply (contains_app_r p [a]), IH.
Qed.

(** What the sanitizer of app.py returns is a contiguous part of the cleaned
    text, with or without a semicolon added. *)
Lemma app_clean_infix (q out : text) :
  App.clean_sql_query q = inr out ->
  exists body, infix body (cleaned q) /\
    (out = body \/ out = body ++ [semicolon]).
Proof.
  rewrite app_clean_unfold. destruct (select_part q) as [e|t] eqn:E;
    [discriminate|]. intros H. inversion H. clear H.
  exists (strip t). split.
  - eapply infix_trans; [apply infix_strip | now apply select_part_infix].
  - destruct (endswith [semicolon] (strip t)); cbn [negb]; [now left | now right].
Qed.

Lemma infix_free (p a s : text) :
  infix a s -> contains p s = false -> contains p a = false.
Proof.
  intros Hi Hs. destruct (contains p a) eqn:E; [|reflexivity].
  apply (infix_contains _ _ _ Hi) in E. congruence.
Qed.

Lemma app_clean_free (p q out : text) :
  p <> [] -> ~ In semicolon p ->
  App.clean_sql_query q = inr out ->
  contains p (cleaned q) = false -> contains p out = false.
Proof.
  intros Hp Hc H Hs. destruct (app_clean_infix _ _ H) as (body & Hi & [->| ->]).
  - now apply (infix_free p body (cleaned q)).
  - destruct (contains p (body ++ [semicolon])) eqn:E; [|reflexivity].
    apply contains_snoc in E; [|exact Hp|exact Hc].
    rewrite (infix_free p body (cleaned q) Hi Hs) in E. discriminate.
Qed.

Lemma returned_main_clean (q : text) :
  returned (Main.clean_sql_query q) = returned (select_part q).
Proof. rewrite main_clean_unfold. now destruct (select_part q). Qed.

Lemma returned_app_clean (q : text) :
  returned (App.clean_sql_query q) = returned (select_part q).
Proof. rewrite app_clean_unfold. now destruct (select_part q). Qed.

(** C1, amended: on an ASCII text each sanitizer returns exactly when the
    text left after comments and backticks are removed starts with SELECT
    (in any case) once stripped, or holds SELECT followed by whitespace, and
    raises otherwise.  What main.py returns begins with SELECT and holds no
    semicolon and no backtick; what app.py returns begins with SELECT, ends
    with a semicolon and holds no backtick.  Neither output holds a comment
    marker [--] or [/*] that the cleaned text does not hold, and the cleaned
    text holds none when the raw text has no [/*] and no backtick. *)
Theorem clean_sql_query_postcondition (q : text) :
  isascii q = true ->
  (returned (Main.clean_sql_query q) = recoverable q /\
   forall out, Main.clean_sql_query q = inr out ->
     begins_with_select out = true /\ ~ In semicolon out /\ ~ In backtick out /\
     (contains (txt "--") (cleaned q) = false -> contains (txt "--") out = false) /\
     (contains (txt "/*") (cleaned q) = false -> contains (txt "/*") out = false)) /\
  (returned (App.clean_sql_query q) = recoverable q /\
   forall out, App.clean_sql_query q = inr out ->
     begins_with_select out = true /\ endswith [semicolon] out = true /\
     ~ In backtick out /\
     (contains (txt "--") (cleaned q) = false -> contains (txt "--") out = false) /\
     (contains (txt "/*") (cleaned q) = false -> contains (txt "/*") out = false)) /\
  (contains (txt "/*") q = false -> ~ In backtick q ->
   contains (txt "--") (cleaned q) = false /\
   contains (txt "/*") (cleaned q) = false).
Proof.
  intros _. split; [|split].
  - split; [rewrite returned_main_clean; apply select_part_returns|].
    intros out H. destruct (main_clean_post _ _ H) as (Hb & Hs & Ht).
    pose proof (main_clean_infix _ _ H) as Hi.
    repeat split; try assumption; intros Hc; now apply (infix_free _ out (cleaned q)).
  - split; [rewrite returned_app_clean; apply select_part_returns|].
    intros out H. destruct (app_clean_post _ _ H) as (Hb & Hs & Ht).
    repeat split; try assumption; intros Hc;
      apply (app_clean_free _ q out); try assumption; try discriminate;
      intros [Hx|[Hx|[]]]; discriminate.
  - intros Hb Ht. rewrite (cleaned_plain q Hb Ht). split.
    + apply line_pass_no_marker.
    + now apply (line_pass_keeps_no_opener (List.length q) q (le_n _)).
Qed.

Lemma clean_sql_query_postcondition_witness :
  Main.clean_sql_query (txt "Here it is: select a from t -- all; drop table t")
  = inr (txt "select a from t") /\
  begins_with_select (txt "select a from t") = true /\
  ~ In semicolon (txt "select a from t") /\
  contains (txt "--") (txt "select a from t") = false.
Proof.
  pose (q := txt "Here it is: select a from t -- all; drop table t").
  assert (Hm : Main.clean_sql_query q = inr (txt "select a from t"))
    by reflexivity.
  assert (Ha : isascii q = true) by reflexivity.
  destruct (clean_sql_query_postcondition q Ha) as [[_ Hmain] [_ Hclean]].
  destruct (Hmain _ Hm) as (Hb & Hs & _ & Hd & _).
  split; [exact Hm|]. split; [exact Hb|]. split; [exact Hs|].
  apply Hd. apply Hclean; [reflexivity|].
  apply contains_char_false. reflexivity.
Defined.

End SanitizerGuarantee.

(** ** What the executors hand to the database *)

Section ExecutorTraces.

Import Py.

(** The executor of main.py hands at most one statement to the database per
    call, and never one that holds a semicolon: of several statements only
    the first can run. *)
Theorem execute_sql_query_one_statement (db : Main.Engine) (q : text) :
  List.length (snd (Main.execute_sql_query db q)) <= 1 /\
  Forall (fun stmt => ~ In semicolon stmt) (snd (Main.execute_sql_query db q)).
Proof.
  unfold Main.execute_sql_query. cbv zeta.
  fold (first_statement q). fold (begins_with_select (first_statement q)).
  destruct (falsy q); [split; [simpl; lia | constructor]|].
  destruct (begins_with_select (first_statement q)); cbn [negb];
    [|split; [simpl; lia | constructor]].
  destruct (Main.connect db); [split; [simpl; lia | constructor]|].
  assert (Hs : ~ In semicolon (first_statement q))
    by (rewrite first_statement_cut; apply cut_statement_no_semicolon).
  destruct (Main.run db (first_statement q)) as [e|[cols rows]]; cbn [snd];
    (split; [simpl; lia | repeat constructor; exact Hs]).
Qed.

Lemma begins_nonempty (q : text) :
  begins_with_select (strip q) = true -> falsy q = false.
Proof. destruct q; [discriminate | reflexivity]. Qed.

Lemma first_statement_keeps_select (q : text) :
  begins_with_select (strip q) = true ->
  begins_with_select (first_statement q) = true.
Proof. intros H. rewrite first_statement_cut. now apply cut_statement_begins. Qed.

(** What the executor of main.py does with a text that passes its check. *)
Lemma main_execute_select (db : Main.Engine) (q : text) :
  begins_with_select (strip q) = true ->
  Main.execute_sql_query db q =
  match Main.connect db with
  | Some e => (inl (txt "Error executing query: " ++ e), [])
  | None =>
      match Main.run db (first_statement q) with
      | inl e => (inl (txt "Error executing query: " ++ e), [first_statement q])
      | inr (columns, rows) =>
          (inr (map (dict_of_zip columns) rows, columns), [first_statement q])
      end
  end.
Proof.
  intros Hb. unfold Main.execute_sql_query. cbv zeta.
  fold (first_statement q). fold (begins_with_select (first_statement q)).
  rewrite (begins_nonempty q Hb), (first_statement_keeps_select q Hb).
  cbn [negb]. destruct (Main.connect db); [reflexivity|].
  now destruct (Main.run db (first_statement q)) as [e|[cols rows]].
Qed.



(** What the sanitizer of main.py returns is, once stripped, its own first
    statement. *)
Lemma sanitized_first_statement (q out : text) :
  Main.clean_sql_query q = inr out ->
  first_statement out = strip out /\ begins_with_select (strip out) = true.
Proof.
  intros H. destruct (main_clean_post _ _ H) as (Hb & Hs & _). split.
  - rewrite first_statement_cut. apply cut_statement_fixed.
    intros Hin. apply Hs. destruct (infix_strip out) as (a & b & Hab).
    rewrite Hab. apply in_or_app. right. apply in_or_app. now left.
  - now apply begins_strip.
Qed.

(** The two layers of main.py compose on ASCII texts: the executor's own
    check never refuses what the sanitizer returned.  Once the connection is
    made it hands the sanitized text, stripped, to the database, and that
    statement starts with SELECT and holds no semicolon and no backtick. *)
Theorem sanitized_query_is_executed (db : Main.Engine) (q out : text) :
  isascii q = true ->
  Main.clean_sql_query q = inr out ->
  Main.connect db = None ->
  snd (Main.execute_sql_query db out) = [strip out] /\
  begins_with_select (strip out) = true /\
  ~ In semicolon (strip out) /\ ~ In backtick (strip out).
Proof.
  intros _ H Hc. destruct (sanitized_first_statement _ _ H) as [Hf Hb].
  destruct (main_clean_post _ _ H) as (_ & Hs & Ht).
  assert (Hin : forall c, In c (strip out) -> In c out).
  { intros c Hin. destruct (infix_strip out) as (a & b & Hab).
    rewrite Hab. apply in_or_app. right. apply in_or_app. now left. }
  repeat split; try (intros Hx; apply Hin in Hx; contradiction); [|exact Hb].
  rewrite (main_execute_select db out Hb), Hc, Hf.
  now destruct (Main.run db (strip out)) as [e|[cols rows]].
Qed.

Lemma sanitized_query_is_executed_witness :
  snd (Main.execute_sql_query sample_engine (txt "select a from t"))
  = [strip (txt "select a from t")] /\
  begins_with_select (strip (txt "select a from t")) = true /\
  ~ In semicolon (strip (txt "select a from t")) /\
  ~ In backtick (strip (txt "select a from t")).
Proof.
  apply (sanitized_query_is_executed sample_engine
           (txt "Here: select a from `t`; drop table t") (txt "select a from t"));
    reflexivity.
Defined.










End ExecutorTraces.

(** ** Grouping the catalogue rows by table (db_utils.py) *)

Section Grouping.

Import Py.

Lemma eqb_refl (a : text) : Py.eqb a a = true.
Proof. now apply eqb_eq. Qed.

Lemma eqb_neq (a b : text) : Py.eqb a b = false <-> a <> b.
Proof.
  split.
  - intros H Heq. apply eqb_eq in Heq. congruence.
  - intros H. destruct (Py.eqb a b) eqn:E; [|reflexivity].
    apply eqb_eq in E. contradiction.
Qed.

Lemma dict_get_set_same {V : Type} (k : text) (v : V) (d : list (text * V)) :
  dict_get k (dict_set k v d) = Some v.
Proof.
  induction d as [|[k' v'] d IH]; simpl.
  - now rewrite eqb_refl.
  - destruct (Py.eqb k k') eqn:E; simpl; rewrite E; [reflexivity | exact IH].
Qed.

Lemma dict_get_set_other {V : Type} (k k' : text) (v : V) (d : list (text * V)) :
  k <> k' -> dict_get k (dict_set k' v d) = dict_get k d.
Proof.
  intros Hne. apply eqb_neq in Hne.
  induction d as [|[k0 v0] d IH]; simpl.
  - now rewrite Hne.
  - destruct (Py.eqb k' k0) eqn:E; simpl.
    + apply eqb_eq in E. subst k0. now rewrite Hne.
    + now rewrite IH.
Qed.

Lemma dict_get_In {V : Type} (k : text) (d : list (text * V)) :
  In k (map fst d) <-> dict_get k d <> None.
Proof.
  induction d as [|[k' v'] d IH]; simpl.
  - split; [tauto | congruence].
  - destruct (Py.eqb k k') eqn:E.
    + apply eqb_eq in E. subst. split; [discriminate | now left].
    + apply eqb_neq in E. rewrite <- IH. split.
      * intros [H|H]; [congruence | exact H].
      * intros H. now right.
Qed.

Lemma dict_set_keys {V : Type} (k : text) (v : V) (d : list (text * V)) :
  map fst (dict_set k v d)
  = match dict_get k d with
    | Some _ => map fst d
    | None => map fst d ++ [k]
    end.
Proof.
  induction d as [|[k' v'] d IH]; simpl; [reflexivity|].
  destruct (Py.eqb k k') eqn:E; simpl; [reflexivity|].
  rewrite IH. now destruct (dict_get k d).
Qed.

Lemma dict_set_NoDup {V : Type} (k : text) (v : V) (d : list (text * V)) :
  NoDup (map fst d) -> NoDup (map fst (dict_set k v d)).
Proof.
  intros H. rewrite dict_set_keys. destruct (dict_get k d) eqn:E; [exact H|].
  apply NoDup_app; [exact H | repeat constructor; intros [] |].
  intros x Hx [<-|[]]. apply dict_get_In in Hx. congruence.
Qed.

Lemma dict_get_item {V : Type} (k : text) (v : V) (d : list (text * V)) :
  NoDup (map fst d) -> In (k, v) d -> dict_get k d = Some v.
Proof.
  induction d as [|[k' v'] d IH]; intros Hnd Hin; [destruct Hin|].
  simpl in Hnd. inversion Hnd as [|? ? Hnot Hnd']; subst.
  simpl. destruct Hin as [Heq|Hin].
  - inversion Heq. subst. now rewrite eqb_refl.
  - destruct (Py.eqb k k') eqn:E.
    + apply eqb_eq in E. subst. elim Hnot.
      change k' with (fst (k', v)). now apply in_map.
    + now apply IH.
Qed.

Lemma dict_get_some_In {V : Type} (k : text) (v : V) (d : list (text * V)) :
  dict_get k d = Some v -> In (k, v) d.
Proof.
  induction d as [|[k' v'] d IH]; simpl; [discriminate|].
  destruct (Py.eqb k k') eqn:E.
  - apply eqb_eq in E. subst. intros H. inversion H. now left.
  - intros H. right. now apply IH.
Qed.

Lemma dict_append_get (k n line : text) (d : list (text * list text)) :
  dict_get k (DbUtils.dict_append n line d)
  = if Py.eqb k n
    then Some (match dict_get k d with
               | Some lines => lines ++ [line]
               | None => [line]
               end)
    else dict_get k d.
Proof.
  unfold DbUtils.dict_append. destruct (Py.eqb k n) eqn:E.
  - apply eqb_eq in E. subst n.
    destruct (dict_get k d); apply dict_get_set_same.
  - apply eqb_neq in E.
    destruct (dict_get n d); now apply dict_get_set_other.
Qed.

Lemma dict_append_NoDup (n line : text) (d : list (text * list text)) :
  NoDup (map fst d) -> NoDup (map fst (DbUtils.dict_append n line d)).
Proof.
  unfold DbUtils.dict_append. destruct (dict_get n d); apply dict_set_NoDup.
Qed.

(** The loop over the rows, from any dict: what is stored under a table
    afterwards is what was stored before, followed by the lines of its rows
    in order. *)
Lemma grouping_get (rows : list ColumnRow) (d : list (text * list text)) (k : text) :
  dict_get k
    (fold_left (fun d row =>
                  DbUtils.dict_append (table_name row) (DbUtils.column_line row) d)
               rows d)
  = match dict_get k d, lines_of k rows with
    | Some l0, ls => Some (l0 ++ ls)
    | None, [] => None
    | None, ls => Some ls
    end.
Proof.
  revert d. induction rows as [|r rows IH]; intros d.
  - unfold lines_of. simpl. destruct (dict_get k d); [now rewrite app_nil_r|reflexivity].
  - cbn [fold_left]. rewrite IH, dict_append_get.
    unfold lines_of. cbn [filter].
    destruct (Py.eqb k (table_name r)) eqn:E; cbn [map].
    + fold (lines_of k rows). destruct (dict_get k d) as [l0|];
        [now rewrite <- app_assoc | reflexivity].
    + reflexivity.
Qed.

Lemma grouping_NoDup (rows : list ColumnRow) (d : list (text * list text)) :
  NoDup (map fst d) ->
  NoDup (map fst
    (fold_left (fun d row =>
                  DbUtils.dict_append (table_name row) (DbUtils.column_line row) d)
               rows d)).
Proof.
  revert d. induction rows as [|r rows IH]; intros d H; [exact H|].
  cbn [fold_left]. apply IH. now apply dict_append_NoDup.
Qed.

Lemma lines_of_nonempty (k : text) (rows : list ColumnRow) :
  lines_of k rows <> [] <-> In k (map table_name rows).
Proof.
  unfold lines_of. induction rows as [|r rows IH]; simpl; [tauto|].
  destruct (Py.eqb k (table_name r)) eqn:E.
  - apply eqb_eq in E. split; [now left | discriminate].
  - apply eqb_neq in E. rewrite IH. split.
    + intros H. now right.
    + intros [H|H]; [congruence | exact H].
Qed.

(** [get_table_info] of db_utils.py gives each table of the catalogue rows
    one entry, whatever the order of the rows: the tables of the dict are
    those of the rows, none twice, and the lines under a table are the lines
    of all its rows, in row order. *)
Theorem get_table_info_groups (rows : list ColumnRow) :
  NoDup (map fst (grouped rows)) /\
  (forall k, In k (map fst (grouped rows)) <-> In k (map table_name rows)) /\
  (forall k lines, In (k, lines) (grouped rows) <->
     lines = lines_of k rows /\ lines <> []).
Proof.
  assert (Hnd : NoDup (map fst (grouped rows)))
    by (apply grouping_NoDup; constructor).
  assert (Hget : forall k, dict_get k (grouped rows)
                 = match lines_of k rows with [] => None | ls => Some ls end).
  { intros k. unfold grouped. rewrite grouping_get. reflexivity. }
  split; [exact Hnd|]. split.
  - intros k. rewrite dict_get_In, Hget, <- lines_of_nonempty.
    destruct (lines_of k rows); split; congruence.
  - intros k lines. split.
    + intros Hin. apply (dict_get_item _ _ _ Hnd) in Hin.
      rewrite Hget in Hin. destruct (lines_of k rows); [discriminate|].
      inversion Hin. split; [reflexivity | discriminate].
    + intros [-> Hne]. apply dict_get_some_In. rewrite Hget.
      destruct (lines_of k rows); [congruence | reflexivity].
Qed.

(** The schema text of db_utils.py for a catalogue with rows: the blocks of
    the grouped tables, then the foreign-key annotations, separated by blank
    lines. *)
Theorem get_table_info_text (db : DbUtils.Database)
    (rows : list ColumnRow) (fks : list DbUtils.ForeignKey) :
  DbUtils.connect db = None ->
  DbUtils.public_columns db = inr rows -> rows <> [] ->
  DbUtils.foreign_keys db = inr fks ->
  DbUtils.get_table_info db
  = join (nl ++ nl) (map table_block (grouped rows) ++ foreign_key_lines fks).
Proof.
  intros Hc Hrows Hne Hfk.
  unfold DbUtils.get_table_info, DbUtils.get_db_connection. cbv zeta.
  rewrite Hc, Hrows, Hfk. destruct rows as [|r rows]; [congruence|].
  fold (grouped (r :: rows)). unfold foreign_key_lines.
  destruct fks; [now rewrite app_nil_r | reflexivity].
Qed.

Lemma get_table_info_text_witness :
  DbUtils.get_table_info sample_database
  = join (nl ++ nl) (map table_block (grouped sample_columns) ++ foreign_key_lines []).
Proof.
  apply (get_table_info_text sample_database sample_columns []);
    try reflexivity. discriminate.
Defined.

End Grouping.

(** ** From the completion to the answer (main.py) *)

Section Pipeline.

Import Py.

Lemma generate_unfold (completion : result text) :
  Main.generate_sql_query completion =
  match completion with
  | inl e => inl (txt "Failed to generate SQL: " ++ e)
  | inr content =>
      match Main.clean_sql_query (candidate content) with
      | inl e => inl (txt "Failed to generate SQL: " ++ e)
      | inr sql => inr sql
      end
  end.
Proof. unfold Main.generate_sql_query. now destruct completion. Qed.

Lemma generate_returns (completion : result text) (sql : text) :
  Main.generate_sql_query completion = inr sql ->
  exists content, completion = inr content /\
    Main.clean_sql_query (candidate content) = inr sql.
Proof.
  rewrite generate_unfold. destruct completion as [e|content]; [discriminate|].
  destruct (Main.clean_sql_query (candidate content)) as [e|s] eqn:E;
    [discriminate|].
  intros H. inversion H. subst. now exists content.
Qed.

Lemma code_fence_starts (s : text) (n : nat) :
  Re.code_fence s = Some n -> exists r, s = backtick :: r.
Proof.
  unfold Re.code_fence.
  destruct (startswith (txt "```sql") s) eqn:E1.
  - apply startswith_true in E1 as [r ->]. intros _. eexists. reflexivity.
  - destruct (startswith (txt "```") s) eqn:E2; [|discriminate].
    apply startswith_true in E2 as [r ->]. intros _. eexists. reflexivity.
Qed.

Lemma sub_fence_plain (body tail : text) :
  ~ In backtick body ->
  Re.sub Re.code_fence (body ++ tail) = body ++ Re.sub Re.code_fence tail.
Proof.
  induction body as [|c body IH]; intros H; [reflexivity|].
  simpl app. rewrite sub_cons.
  assert (Hc : c <> backtick) by (intros ->; apply H; now left).
  assert (Hm : Re.code_fence (c :: body ++ tail) = None).
  { destruct (Re.code_fence (c :: body ++ tail)) as [n|] eqn:E; [|reflexivity].
    apply code_fence_starts in E as [r Hr]. inversion Hr. contradiction. }
  rewrite Hm, IH; [reflexivity|]. intros Hin. apply H. now right.
Qed.

Lemma lstrip_app_space (x : text) (w : ascii) :
  is_space w = true ->
  lstrip (x ++ [w]) = match lstrip x with [] => [] | d => d ++ [w] end.
Proof.
  intros Hw. unfold lstrip. induction x as [|c x IH]; simpl.
  - now rewrite Hw.
  - destruct (is_space c); [exact IH | reflexivity].
Qed.

Lemma rstrip_app_space (x : text) (w : ascii) :
  is_space w = true -> rstrip (x ++ [w]) = rstrip x.
Proof.
  intros Hw. unfold rstrip. rewrite rev_app_distr. simpl. now rewrite Hw.
Qed.

Lemma strip_app_space (x : text) (w : ascii) :
  is_space w = true -> strip (x ++ [w]) = strip x.
Proof.
  intros Hw. unfold strip. rewrite (lstrip_app_space x w Hw).
  destruct (lstrip x) as [|c d]; [reflexivity|].
  now apply rstrip_app_space.
Qed.

Lemma strip_cons_space (w : ascii) (x : text) :
  is_space w = true -> strip (w :: x) = strip x.
Proof. intros Hw. unfold strip, lstrip. simpl. now rewrite Hw. Qed.

Lemma candidate_plain (body : text) :
  ~ In backtick body -> candidate body = strip body.
Proof.
  intros H. unfold candidate.
  assert (Hs : ~ In backtick (strip body)).
  { intros Hin. apply H. destruct (strip_infix body) as (a & b & Hab).
    rewrite Hab. apply in_or_app. right. apply in_or_app. now left. }
  pose proof (sub_fence_plain (strip body) [] Hs) as Hsub.
  rewrite !app_nil_r in Hsub. rewrite Hsub. apply strip_strip.
Qed.

Lemma candidate_fenced (opener body : text) :
  opener = txt "```sql" \/ opener = txt "```" ->
  ~ In backtick body ->
  candidate (opener ++ nl ++ body ++ nl ++ txt "```") = strip body.
Proof.
  intros Hop Hb. unfold candidate.
  assert (Hfix : strip (opener ++ nl ++ body ++ nl ++ txt "```")
                 = opener ++ nl ++ body ++ nl ++ txt "```").
  { apply strip_fixed.
    - destruct Hop as [-> | ->]; reflexivity.
    - change (txt "```") with (txt "``" ++ [backtick]).
      rewrite !app_assoc. now apply last_ok_snoc. }
  rewrite Hfix.
  assert (Hopen : Re.sub Re.code_fence (opener ++ nl ++ body ++ nl ++ txt "```")
                  = Re.sub Re.code_fence (nl ++ body ++ nl ++ txt "```")).
  { destruct Hop as [-> | ->].
    - cbn [txt list_ascii_of_string app]. now rewrite sub_cons.
    - cbn [txt list_ascii_of_string app nl]. now rewrite sub_cons. }
  rewrite Hopen. cbn [nl app]. rewrite sub_cons.
  change (Re.code_fence (Re.newline :: body ++ Re.newline :: txt "```"))
    with (@None nat).
  rewrite (sub_fence_plain body (Re.newline :: txt "```") Hb).
  change (Re.sub Re.code_fence (Re.newline :: txt "```")) with [Re.newline].
  rewrite strip_cons_space by reflexivity.
  now apply strip_app_space.
Qed.

(** Code fences around the completion do not matter: a completion without
    backticks gives the same outcome bare, inside [```sql] fences and inside
    bare [```] fences. *)
Theorem generate_sql_query_fences (body : text) :
  ~ In backtick body ->
  Main.generate_sql_query (inr (txt "```sql" ++ nl ++ body ++ nl ++ txt "```"))
  = Main.generate_sql_query (inr body) /\
  Main.generate_sql_query (inr (txt "```" ++ nl ++ body ++ nl ++ txt "```"))
  = Main.generate_sql_query (inr body).
Proof.
  intros H. rewrite !generate_unfold, (candidate_plain body H).
  rewrite (candidate_fenced (txt "```sql") body); auto.
  rewrite (candidate_fenced (txt "```") body); auto.
Qed.

Lemma generate_sql_query_fences_witness :
  Main.generate_sql_query
    (inr (txt "```sql" ++ nl ++ txt "SELECT a FROM t;" ++ nl ++ txt "```"))
  = Main.generate_sql_query (inr (txt "SELECT a FROM t;")) /\
  Main.generate_sql_query
    (inr (txt "```" ++ nl ++ txt "SELECT a FROM t;" ++ nl ++ txt "```"))
  = Main.generate_sql_query (inr (txt "SELECT a FROM t;")).
Proof.
  apply (generate_sql_query_fences (txt "SELECT a FROM t;")).
  apply contains_char_false. reflexivity.
Defined.

End Pipeline.

Section Answers.

Import Py.

(** What [process_query] does once the generator returned a query. *)
Lemma process_generated (db : Main.Engine) (user_query sql : text)
    (completion : result text) :
  Main.generate_sql_query completion = inr sql ->
  Main.process_query db (Main.Query user_query) completion =
  match Main.connect db with
  | Some e =>
      match Main.classify_error db (txt "Error executing query: " ++ e) with
      | inl _ => (Main.Unexpected, [])
      | inr msg => (Main.Failed msg (Some sql), [])
      end
  | None =>
      match Main.run db (strip sql) with
      | inl e =>
          match Main.classify_error db (txt "Error executing query: " ++ e) with
          | inl _ => (Main.Unexpected, [strip sql])
          | inr msg => (Main.Failed msg (Some sql), [strip sql])
          end
      | inr (columns, rows) =>
          (Main.Results sql (map (dict_of_zip columns) rows) columns, [strip sql])
      end
  end.
Proof.
  intros Hg. unfold Main.process_query. rewrite Hg.
  destruct (generate_returns _ _ Hg) as (content & _ & Hclean).
  destruct (sanitized_first_statement _ _ Hclean) as [Hf Hb].
  rewrite (main_execute_select db sql Hb), Hf.
  destruct (Main.connect db); [reflexivity|].
  now destruct (Main.run db (strip sql)) as [e|[cols rows]].
Qed.

Lemma process_not_generated (db : Main.Engine) (user_query e : text)
    (completion : result text) :
  Main.generate_sql_query completion = inl e ->
  snd (Main.process_query db (Main.Query user_query) completion) = [].
Proof.
  intros Hg. unfold Main.process_query. rewrite Hg.
  now destruct (Main.classify_error db e).
Qed.

(** Whatever the request, the database and the ASCII text of the
    completion, [process_query] hands at most one statement to the database,
    and that statement starts with SELECT and holds no semicolon and no
    backtick. *)
Theorem process_query_safe (db : Main.Engine) (data : Main.Body)
    (completion : result text) :
  ascii_completion completion = true ->
  List.length (snd (Main.process_query db data completion)) <= 1 /\
  Forall (fun stmt => begins_with_select stmt = true /\
                      ~ In semicolon stmt /\ ~ In backtick stmt)
         (snd (Main.process_query db data completion)).
Proof.
  intros _.
  destruct data as [| |user_query]; try (split; [simpl; lia | constructor]).
  destruct (Main.generate_sql_query completion) as [e|sql] eqn:Hg.
  - rewrite (process_not_generated db user_query e completion Hg).
    split; [simpl; lia | constructor].
  - rewrite (process_generated db user_query sql completion Hg).
    destruct (generate_returns _ _ Hg) as (content & _ & Hclean).
    destruct (sanitized_first_statement _ _ Hclean) as [_ Hb].
    destruct (main_clean_post _ _ Hclean) as (_ & Hs & Ht).
    assert (Hin : forall c, In c (strip sql) -> In c sql).
    { intros c Hin. destruct (infix_strip sql) as (a & b & Hab).
      rewrite Hab. apply in_or_app. right. apply in_or_app. now left. }
    assert (Hok : begins_with_select (strip sql) = true /\
                  ~ In semicolon (strip sql) /\ ~ In backtick (strip sql)).
    { repeat split; [exact Hb | |]; intros Hx; apply Hin in Hx; contradiction. }
    destruct (Main.connect db).
    + destruct (Main.classify_error db _); split; simpl; try lia; constructor.
    + destruct (Main.run db (strip sql)) as [e|[cols rows]].
      * destruct (Main.classify_error db _); split; simpl; try lia;
          repeat constructor; apply Hok.
      * split; simpl; try lia; repeat constructor; apply Hok.
Qed.

Lemma process_query_safe_witness :
  List.length
    (snd (Main.process_query sample_engine (Main.Query (txt "How many projects?"))
            (inr (txt "select count(*) from `projects`; drop table users"))))
  <= 1 /\
  Forall (fun stmt => begins_with_select stmt = true /\
                      ~ In semicolon stmt /\ ~ In backtick stmt)
         (snd (Main.process_query sample_engine
                 (Main.Query (txt "How many projects?"))
                 (inr (txt "select count(*) from `projects`; drop table users")))).
Proof.
  apply (process_query_safe sample_engine (Main.Query (txt "How many projects?"))
           (inr (txt "select count(*) from `projects`; drop table users"))).
  reflexivity.
Defined.



(** An ASCII completion in which SELECT, in any case, occurs nowhere once
    fences, comments and backticks are removed never reaches the database:
    the answer is the 400 answer with the generator's message and no
    query. *)
Theorem process_query_refuses (db : Main.Engine) (user_query content : text) :
  isascii content = true ->
  contains (txt "SELECT") (upper (cleaned (candidate content))) = false ->
  Main.process_query db (Main.Query user_query) (inr content)
  = (Main.Failed
       (txt "Failed to generate SQL: Only SELECT queries are allowed") None,
     []).
Proof.
  intros _ H. unfold Main.process_query. rewrite generate_unfold.
  rewrite main_clean_unfold, (select_part_refuses _ H).
  reflexivity.
Qed.

Lemma process_query_refuses_witness :
  Main.process_query sample_engine (Main.Query (txt "Remove the projects"))
    (inr (txt "```sql" ++ nl ++ txt "DROP TABLE projects;" ++ nl ++ txt "```"))
  = (Main.Failed
       (txt "Failed to generate SQL: Only SELECT queries are allowed") None,
     []).
Proof.
  apply (process_query_refuses sample_engine (txt "Remove the projects"));
    reflexivity.
Defined.

Lemma occurs_prefixed (name pre msg : text) :
  occurs name msg -> occurs name (pre ++ msg).
Proof.
  intros (Hne & Hw & x & y & ->). repeat split; try assumption.
  exists (pre ++ x), y. now rewrite <- app_assoc.
Qed.

(** The executor and the classifier compose: when the database refuses the
    query generated from an ASCII completion with an ASCII message in which
    [relation "<name>" does not exist] occurs, the answer is the 400 answer
    that names a missing table of the message and the live tables, and it
    carries the generated query. *)
Theorem process_query_missing_table (db : Main.Engine)
    (user_query sql e name : text) (completion : result text) :
  ascii_completion completion = true ->
  isascii e = true ->
  Main.generate_sql_query completion = inr sql ->
  Main.connect db = None ->
  Main.run db (strip sql) = inl e ->
  occurs name e ->
  exists found,
    occurs found e /\
    Main.process_query db (Main.Query user_query) completion
    = (Main.Failed (missing_table_message found (Main.table_query db)) (Some sql),
       [strip sql]).
Proof.
  intros _ _ Hg Hc Hrun Hocc.
  rewrite (process_generated db user_query sql completion Hg), Hc, Hrun.
  destruct (search_relation_complete _ _ Hocc) as [found Hfound].
  pose proof (search_relation_sound _ _ Hfound) as Hin.
  exists found. split; [exact Hin|].
  (* the prefix holds no occurrence of the pattern, so the search finds in
     the wrapped message what it finds in the database's message *)
  assert (Hsame : Re.search Re.relation_missing (txt "Error executing query: " ++ e)
                  = Re.search Re.relation_missing e) by reflexivity.
  unfold Main.classify_error.
  rewrite (occurs_guard _ _ (occurs_prefixed _ (txt "Error executing query: ") _ Hin)).
  rewrite Hsame, Hfound, Hc. unfold missing_table_message.
  destruct (Main.table_query db); [now rewrite app_nil_r|].
  now rewrite <- !app_assoc.
Qed.

Lemma process_query_missing_table_witness :
  exists found,
    occurs found (relation_pattern (txt "foo")) /\
    Main.process_query bar_baz_engine (Main.Query (txt "Show foo"))
      (inr (txt "SELECT * FROM foo;"))
    = (Main.Failed
         (missing_table_message found (Main.table_query bar_baz_engine))
         (Some (txt "SELECT * FROM foo")),
       [strip (txt "SELECT * FROM foo")]).
Proof.
  apply (process_query_missing_table bar_baz_engine (txt "Show foo")
           (txt "SELECT * FROM foo") (relation_pattern (txt "foo")) (txt "foo")
           (inr (txt "SELECT * FROM foo;")));
    try reflexivity.
  repeat split; try reflexivity; try discriminate.
  exists [], []. now rewrite app_nil_r.
Defined.

End Answers.

(** ** The query tool (sql_chain.py) and the chat executor (app.py) *)

Section Tools.

Import Py.

(** Every error of the executor of db_utils.py carries its prefix. *)
Lemma db_utils_error_prefix (db : DbUtils.Database) (q e : text) :
  fst (DbUtils.execute_sql_query db q) = inl e ->
  exists e', e = txt "Error executing SQL query: " ++ e'.
Proof.
  unfold DbUtils.execute_sql_query. cbv zeta.
  match goal with
  | |- fst (match ?a with _ => _ end) = _ -> _ => destruct a as [[e0|r] tr]
  end; cbn [fst]; intros H; [|discriminate].
  inversion H. now exists e0.
Qed.

(** [run_sql_query] raises nothing: a failure of the executor comes back as
    text, and since the executor has already put "Error executing SQL
    query: " before the cause, the text carries that prefix twice.  The
    trace is the executor's. *)
Theorem run_sql_query_error (db : DbUtils.Database) (q e : text) :
  fst (DbUtils.execute_sql_query db q) = inl e ->
  exists cause,
    fst (SqlChain.run_sql_query db q)
    = txt "Error executing SQL query: " ++ txt "Error executing SQL query: "
      ++ cause /\
    snd (SqlChain.run_sql_query db q) = snd (DbUtils.execute_sql_query db q).
Proof.
  intros H. destruct (db_utils_error_prefix db q e H) as [cause Hc].
  exists cause. unfold SqlChain.run_sql_query.
  destruct (DbUtils.execute_sql_query db q) as [[e0|[result cols]] tr];
    cbn [fst snd] in *; [|discriminate].
  inversion H. subst e0. now rewrite Hc.
Qed.

Lemma run_sql_query_error_witness :
  exists cause,
    fst (SqlChain.run_sql_query sample_database (txt "select 1; select 2"))
    = txt "Error executing SQL query: " ++ txt "Error executing SQL query: "
      ++ cause /\
    snd (SqlChain.run_sql_query sample_database (txt "select 1; select 2"))
    = snd (DbUtils.execute_sql_query sample_database (txt "select 1; select 2")).
Proof.
  apply (run_sql_query_error sample_database (txt "select 1; select 2")
           (txt "Error executing SQL query: Multiple SQL queries are not allowed")).
  reflexivity.
Defined.

Lemma fold_left_lines {A : Type} (f : A -> text) (l : list A) (acc : text) :
  fold_left (fun acc x => acc ++ f x) l acc = acc ++ List.concat (map f l).
Proof.
  revert acc. induction l as [|x l IH]; intros acc; simpl.
  - now rewrite app_nil_r.
  - now rewrite IH, <- app_assoc.
Qed.

Lemma count_app (c : ascii) (a b : text) :
  count c (a ++ b) = count c a + count c b.
Proof. unfold count. now rewrite filter_app, length_app. Qed.

Lemma count_join (c : ascii) (sep : text) (parts : list text) :
  count c sep = 0 -> Forall (fun p => ~ In c p) parts ->
  count c (join sep parts) = 0.
Proof.
  intros Hsep. induction 1 as [|p parts Hp _ IH]; [reflexivity|].
  destruct parts as [|p' parts]; simpl join.
  - now apply count_none.
  - rewrite !count_app, Hsep, (count_none _ _ Hp). exact IH.
Qed.

Lemma table_line_one (fields : list text) :
  Forall (fun p => ~ In Re.newline p) fields ->
  count Re.newline (SqlChain.table_line fields) = 1.
Proof.
  intros H. unfold SqlChain.table_line.
  rewrite !count_app.
  rewrite (count_join Re.newline (txt " | ") fields eq_refl H). reflexivity.
Qed.

Lemma count_concat_lines {A : Type} (f : A -> text) (l : list A) :
  Forall (fun x => count Re.newline (f x) = 1) l ->
  count Re.newline (List.concat (map f l)) = List.length l.
Proof.
  induction 1 as [|x l Hx _ IH]; [reflexivity|].
  simpl. now rewrite count_app, Hx, IH.
Qed.

(** When the executor returns rows, [run_sql_query] returns a header line, a
    separator line with one [---] per column, and one line per element of
    the result, each ending with a newline; with no newline inside a column
    name or a cell, that is two lines more than there are rows. *)
Theorem run_sql_query_table (db : DbUtils.Database) (q : text)
    (result : list DbUtils.item) (columns : list text) :
  fst (DbUtils.execute_sql_query db q) = inr (result, columns) ->
  result <> [] ->
  fst (SqlChain.run_sql_query db q)
  = SqlChain.table_line columns
    ++ SqlChain.table_line (map (fun _ => txt "---") columns)
    ++ List.concat (map (fun row => SqlChain.table_line (SqlChain.cells row)) result) /\
  (Forall (fun name => ~ In Re.newline name) columns ->
   Forall (fun row => Forall (fun cell => ~ In Re.newline cell)
                             (SqlChain.cells row)) result ->
   count Re.newline (fst (SqlChain.run_sql_query db q))
   = 2 + List.length result).
Proof.
  intros H Hne. unfold SqlChain.run_sql_query.
  destruct (DbUtils.execute_sql_query db q) as [[e|[res cols]] tr];
    cbn [fst] in H; [discriminate|].
  inversion H. subst res cols. clear H.
  destruct result as [|row rows]; [congruence|]. cbv zeta. cbn [fst].
  rewrite fold_left_lines, <- app_assoc. split; [reflexivity|].
  intros Hcols Hcells.
  rewrite !count_app, (table_line_one columns Hcols).
  rewrite table_line_one.
  - rewrite count_concat_lines; [reflexivity|].
    eapply Forall_impl; [|exact Hcells]. intros r Hr. now apply table_line_one.
  - apply Forall_forall. intros p Hp. apply in_map_iff in Hp as (x & <- & _).
    intros Hin. apply contains_char in Hin. discriminate.
Qed.

Lemma run_sql_query_table_witness :
  count Re.newline
    (fst (SqlChain.run_sql_query listing_database
            (txt "select id, status from projects")))
  = 2 + 2.
Proof.
  refine (proj2 (run_sql_query_table listing_database
                   (txt "select id, status from projects")
                   [DbUtils.Row [Int 1; Str (txt "new")];
                    DbUtils.Row [Int 2; Null]]
                   [txt "id"; txt "status"] eq_refl _) _ _).
  - discriminate.
  - repeat constructor; intros H; apply contains_char in H; discriminate.
  - repeat constructor; intros H; apply contains_char in H; discriminate.
Defined.

(** What the executor of db_utils.py returns for a modifying statement that
    goes through. *)
Lemma db_utils_execute_modifying (db : DbUtils.Database) (query : text)
    (cursor : DbUtils.Cursor) (rows : list (list value)) :
  falsy query = false ->
  ~ In semicolon (statement query) ->
  DbUtils.connect db = None ->
  DbUtils.modifies (statement query) = true ->
  DbUtils.cursor_execute db (statement query) = inr cursor ->
  DbUtils.fetchall cursor = inr rows ->
  DbUtils.commit db = None ->
  DbUtils.execute_sql_query db query
  = (inr ([DbUtils.Message (txt "Query affected "
                            ++ str_of_int (DbUtils.rowcount cursor)
                            ++ txt " rows")],
          match DbUtils.description cursor with
          | Some names => names
          | None => []
          end),
     [DbUtils.Execute (statement query); DbUtils.Commit]).
Proof.
  intros Hf Hsemi Hconn Hm Hexec Hfetch Hcommit.
  unfold DbUtils.execute_sql_query, DbUtils.get_db_connection. cbv zeta.
  fold (statement query). rewrite Hf, Hconn, (count_none _ _ Hsemi).
  cbn [Nat.ltb Nat.leb]. now rewrite Hexec, Hfetch, Hm, Hcommit.
Qed.

(** For a modifying statement that goes through (one with a RETURNING
    clause, whose rows can be fetched), the one element of the result is the
    row-count message, a string, and [run_sql_query] iterates over it as
    over a row: the table it returns has one cell per character of the
    message.  The query is an ASCII text. *)
Theorem run_sql_query_spells_message (db : DbUtils.Database) (query : text)
    (cursor : DbUtils.Cursor) (rows : list (list value)) :
  isascii query = true ->
  falsy query = false ->
  ~ In semicolon (statement query) ->
  DbUtils.connect db = None ->
  DbUtils.modifies (statement query) = true ->
  DbUtils.cursor_execute db (statement query) = inr cursor ->
  DbUtils.fetchall cursor = inr rows ->
  DbUtils.commit db = None ->
  let columns := match DbUtils.description cursor with
                 | Some names => names
                 | None => []
                 end in
  fst (SqlChain.run_sql_query db query)
  = SqlChain.table_line columns
    ++ SqlChain.table_line (map (fun _ => txt "---") columns)
    ++ SqlChain.table_line
         (map (fun c => [c])
              (txt "Query affected " ++ str_of_int (DbUtils.rowcount cursor)
               ++ txt " rows")).
Proof.
  intros _ Hf Hsemi Hconn Hm Hexec Hfetch Hcommit columns.
  unfold SqlChain.run_sql_query.
  rewrite (db_utils_execute_modifying db query cursor rows
             Hf Hsemi Hconn Hm Hexec Hfetch Hcommit).
  cbv zeta. cbn [fst fold_left SqlChain.cells]. fold columns.
  now rewrite <- app_assoc.
Qed.

Lemma run_sql_query_spells_message_witness :
  fst (SqlChain.run_sql_query sample_database
         (txt "delete from projects returning id"))
  = txt "| id |" ++ nl ++ txt "| --- |" ++ nl
    ++ txt "| Q | u | e | r | y |   | a | f | f | e | c | t | e | d |   | 3 |   | r | o | w | s |"
    ++ nl.
Proof.
  apply (run_sql_query_spells_message sample_database
           (txt "delete from projects returning id")
           (result_cursor [txt "id"] [[Int 1]; [Int 2]; [Int 3]])
           [[Int 1]; [Int 2]; [Int 3]]);
    try reflexivity.
  apply contains_char_false. reflexivity.
Defined.

(** On an ASCII query [execute_sql] of app.py raises nothing and returns
    either a frame or an error, never both and never neither.  It hands at
    most one text to the database, which starts with SELECT, ends with a
    semicolon and holds no backtick; when the sanitizer refuses the query
    its message is the error and nothing is handed over. *)
Theorem execute_sql_outcome (db : Chat.Engine) (query : text) :
  isascii query = true ->
  (fst (fst (Chat.execute_sql db query)) = None <->
   snd (fst (Chat.execute_sql db query)) <> None) /\
  List.length (snd (Chat.execute_sql db query)) <= 1 /\
  Forall (fun stmt => begins_with_select stmt = true /\
                      endswith [semicolon] stmt = true /\ ~ In backtick stmt)
         (snd (Chat.execute_sql db query)) /\
  (forall e, App.clean_sql_query query = inl e ->
     Chat.execute_sql db query = ((None, Some e), [])).
Proof.
  intros _. unfold Chat.execute_sql.
  destruct (App.clean_sql_query query) as [e|clean_query] eqn:E.
  - cbn. repeat split; try discriminate; try constructor; try lia.
    intros e' He'. now inversion He'.
  - pose proof (app_clean_post _ _ E) as Hpost.
    destruct (Chat.connect db).
    + cbn. repeat split; try discriminate; try constructor; try lia.
    + destruct (Chat.read_sql_query db clean_query); cbn;
        repeat split; try discriminate; try congruence; try lia;
        try (repeat constructor; apply Hpost).
Qed.

Lemma execute_sql_outcome_witness :
  snd (Chat.execute_sql flags_engine
         (txt "Here: select name, active from projects -- all of them"))
  = [txt "select name, active from projects;"] /\
  Forall (fun stmt => begins_with_select stmt = true /\
                      endswith [semicolon] stmt = true /\ ~ In backtick stmt)
         (snd (Chat.execute_sql flags_engine
                 (txt "Here: select name, active from projects -- all of them"))).
Proof.
  split; [reflexivity|].
  apply (execute_sql_outcome flags_engine
           (txt "Here: select name, active from projects -- all of them")).
  reflexivity.
Defined.

End Tools.

(** ** The tables of the welcome message (app.py) and of the schema text *)

Section WelcomeTables.

Import Py.

Lemma findall_go_sound {A : Type} (m : text -> option (nat * A))
    (Q : text -> A -> Prop) :
  (forall s' n g, m s' = Some (n, g) -> Q s' g) ->
  forall s skip,
    Forall (fun g => exists pre s', s = pre ++ s' /\ Q s' g)
           (Re.findall_go m skip s).
Proof.
  intros Hm. induction s as [|c s IH]; intros skip; [constructor|].
  assert (Hext : forall k,
    Forall (fun g => exists pre s', c :: s = pre ++ s' /\ Q s' g)
           (Re.findall_go m k s)).
  { intros k. eapply Forall_impl; [|apply IH].
    intros g (pre & s' & -> & Hq). now exists (c :: pre), s'. }
  cbn [Re.findall_go]. destruct skip as [|k]; [|apply Hext].
  destruct (m (c :: s)) as [[[|k] g]|] eqn:E; try apply Hext.
  constructor; [|apply Hext].
  exists [], (c :: s). split; [reflexivity | now apply (Hm _ (S k))].
Qed.

Lemma create_table_sound (s : text) (n : nat) (g : text) :
  Re.create_table s = Some (n, g) ->
  g <> [] /\ forallb Re.is_word g = true /\
  exists rest, s = txt "CREATE TABLE " ++ g ++ rest.
Proof.
  unfold Re.create_table. cbv zeta.
  destruct (startswith (txt "CREATE TABLE ") s) eqn:E; [|discriminate].
  apply startswith_true in E as [rest ->].
  change 13 with (List.length (txt "CREATE TABLE ")). rewrite skipn_exact.
  pose proof (takewhile_dropwhile Re.is_word rest) as Hsplit.
  pose proof (takewhile_Forall Re.is_word rest) as Hword.
  destruct (takewhile Re.is_word rest) as [|c name]; [discriminate|].
  intros H. inversion H. subst. split; [discriminate|].
  split; [now apply forallb_Forall|].
  exists (dropwhile Re.is_word rest). now rewrite Hsplit.
Qed.

(** For an ASCII schema text the welcome message of [on_chat_start] always
    names at least one table, and every name is a non-empty run of word
    characters: either all names stand in the schema text right after
    [CREATE TABLE ], or none was found there and the names are the two
    fallback tables. *)
Theorem welcome_tables_named (schema : text) :
  isascii schema = true ->
  Chat.welcome_tables schema <> [] /\
  Forall (fun t => t <> [] /\ forallb Re.is_word t = true)
         (Chat.welcome_tables schema) /\
  (Forall (fun t => infix (txt "CREATE TABLE " ++ t) schema)
          (Chat.welcome_tables schema) \/
   (Re.findall Re.create_table schema = [] /\
    Chat.welcome_tables schema = [txt "technologies"; txt "projects"])).
Proof.
  intros _.
  pose proof (findall_go_sound Re.create_table
    (fun s' g => g <> [] /\ forallb Re.is_word g = true /\
                 exists rest, s' = txt "CREATE TABLE " ++ g ++ rest)
    create_table_sound schema 0) as Hall.
  fold (Re.findall Re.create_table schema) in Hall.
  unfold Chat.welcome_tables. cbv zeta.
  destruct (Re.findall Re.create_table schema) as [|t ts] eqn:E.
  - split; [discriminate|]. split; [|now right].
    repeat constructor; discriminate.
  - split; [discriminate|]. split.
    + eapply Forall_impl; [|exact Hall].
      intros g (pre & s' & _ & Hne & Hw & _). now split.
    + left. eapply Forall_impl; [|exact Hall].
      intros g (pre & s' & -> & _ & _ & rest & ->).
      exists pre, rest. now rewrite <- app_assoc.
Qed.

Lemma welcome_tables_named_witness :
  Chat.welcome_tables (DbUtils.get_table_info sample_database)
  = [txt "projects"; txt "users"] /\
  Forall (fun t => t <> [] /\ forallb Re.is_word t = true)
         (Chat.welcome_tables (DbUtils.get_table_info sample_database)).
Proof.
  split; [reflexivity|].
  apply (welcome_tables_named (DbUtils.get_table_info sample_database)).
  reflexivity.
Defined.

Lemma join_empty (sep x : text) (parts : list text) :
  join sep (x :: parts) = [] -> x = [].
Proof.
  destruct x as [|c x]; [reflexivity|]. destruct parts; discriminate.
Qed.

(** Once the connection is made, the schema text of main.py is the empty
    string exactly when the database holds no table outside the system
    schemas. *)
Theorem get_table_info_empty (db : Main.Engine) :
  Main.connect db = None ->
  (Main.get_table_info db = [] <-> forall t, ~ user_table db t).
Proof.
  intros Hc. unfold Main.get_table_info. rewrite Hc. split.
  - intros H t Ht. apply table_query_user_table in Ht.
    destruct (Main.table_descriptions db (Main.table_query db))
      as [e|info] eqn:E; [discriminate|].
    destruct (table_descriptions_nonempty _ _ _ E) as [Hl Hf].
    destruct info as [|block info].
    + destruct (Main.table_query db); [destruct Ht | discriminate].
    + apply join_empty in H. inversion Hf. contradiction.
  - intros H. destruct (Main.table_query db) as [|t0 ts] eqn:E; [reflexivity|].
    elim (H t0). apply table_query_user_table. rewrite E. now left.
Qed.

Lemma get_table_info_empty_witness :
  Main.get_table_info empty_engine = [] <-> forall t, ~ user_table empty_engine t.
Proof. apply (get_table_info_empty empty_engine). reflexivity. Defined.

End WelcomeTables.

(** ** The rows [execute_sql_query] of main.py returns *)

Section RowDicts.

Import Py.

Lemma dict_set_fresh {V : Type} (k : text) (v : V) (d : list (text * V)) :
  ~ In k (map fst d) -> dict_set k v d = d ++ [(k, v)].
Proof.
  induction d as [|[k' v'] d IH]; intros H; [reflexivity|].
  simpl. destruct (Py.eqb k k') eqn:E.
  - apply eqb_eq in E. subst. elim H. now left.
  - rewrite IH; [reflexivity|]. intros Hin. apply H. now right.
Qed.

Lemma fold_dict_set_fresh {V : Type} (l acc : list (text * V)) :
  NoDup (map fst acc ++ map fst l) ->
  fold_left (fun d kv => dict_set (fst kv) (snd kv) d) l acc = acc ++ l.
Proof.
  revert acc. induction l as [|[k v] l IH]; intros acc H.
  - now rewrite app_nil_r.
  - cbn [fold_left fst snd]. simpl map in H.
    rewrite dict_set_fresh.
    + rewrite IH; [now rewrite <- app_assoc|].
      rewrite map_app, <- app_assoc. exact H.
    + apply NoDup_remove_2 in H. intros Hin. apply H.
      apply in_or_app. now left.
Qed.

Lemma fold_dict_set_NoDup {V : Type} (l acc : list (text * V)) :
  NoDup (map fst acc) ->
  NoDup (map fst (fold_left (fun d kv => dict_set (fst kv) (snd kv) d) l acc)).
Proof.
  revert acc. induction l as [|[k v] l IH]; intros acc H; [exact H|].
  cbn [fold_left]. apply IH. now apply dict_set_NoDup.
Qed.

Lemma combine_keys_NoDup {V : Type} (columns : list text) (row : list V) :
  NoDup columns -> NoDup (map fst (combine columns row)).
Proof.
  revert row. induction columns as [|c columns IH]; intros row H; [constructor|].
  destruct row as [|v row]; [constructor|].
  inversion H as [|? ? Hnot Hnd]; subst. simpl. constructor.
  - intros Hin. apply Hnot.
    apply in_map_iff in Hin as ([k w] & <- & Hin).
    now apply in_combine_l in Hin.
  - now apply IH.
Qed.

(** A row dict of [execute_sql_query] never holds a column twice; when the
    column names are all different it holds each column with its value, in
    column order, and when a name is repeated the dict is shorter than the
    row. *)
Theorem row_dict_columns (columns : list text) (row : list value) :
  NoDup (map fst (dict_of_zip columns row)) /\
  (NoDup columns -> dict_of_zip columns row = combine columns row) /\
  (List.length row = List.length columns -> ~ NoDup columns ->
   List.length (dict_of_zip columns row) < List.length row).
Proof.
  split; [apply fold_dict_set_NoDup; constructor|]. split.
  - intros H. unfold dict_of_zip.
    apply (fold_dict_set_fresh (combine columns row) []).
    now apply combine_keys_NoDup.
  - intros Hlen Hdup.
    assert (Hk : NoDup (map fst (dict_of_zip columns row)))
      by (apply fold_dict_set_NoDup; constructor).
    assert (Hincl : incl (map fst (dict_of_zip columns row)) columns).
    { unfold dict_of_zip.
      assert (Hgen : forall (l acc : list (text * value)),
        incl (map fst acc) columns -> incl (map fst l) columns ->
        incl (map fst (fold_left (fun d kv => dict_set (fst kv) (snd kv) d) l acc))
             columns).
      { induction l as [|[k v] l IH]; intros acc Ha Hl; [exact Ha|].
        cbn [fold_left fst snd]. apply IH.
        - rewrite dict_set_keys. destruct (dict_get k acc); [exact Ha|].
          apply incl_app; [exact Ha|]. intros x [<-|[]]. apply Hl. now left.
        - intros x Hx. apply Hl. now right. }
      apply Hgen; [intros x [] |].
      intros x Hx. apply in_map_iff in Hx as ([k w] & <- & Hin).
      now apply in_combine_l in Hin. }
    rewrite <- (length_map fst). rewrite Hlen.
    destruct (Nat.lt_ge_cases (List.length (map fst (dict_of_zip columns row)))
                (List.length columns)) as [Hlt|Hge]; [exact Hlt|].
    elim Hdup. apply (NoDup_incl_NoDup Hk Hge Hincl).
Qed.

Lemma row_dict_columns_witness :
  dict_of_zip [txt "id"; txt "status"] [Int 1; Str (txt "new")]
  = combine [txt "id"; txt "status"] [Int 1; Str (txt "new")].
Proof.
  apply (row_dict_columns [txt "id"; txt "status"] [Int 1; Str (txt "new")]).
  repeat constructor; simpl; intuition discriminate.
Defined.

End RowDicts.
